(** * Weather information agent: a shallow embedding and its properties

    The development follows the Python sources:

    - [clients/openWeatherAPI.py]: the HTTP client with retries ([_get],
      [_compute_delay], [geocode_direct], [current_weather]);
    - [tools/weather_tools.py] and [tools/forecast_tools.py]: the three tools;
    - [prompts/system_prompts.py]: the guidance prompts;
    - [agents/weather_agent.py]: the tool-calling loop ([invoke]).

    Python values coming from the provider are dynamically typed JSON, so
    they are embedded as an inductive type [value] with the Python
    operations the code applies to them ([.get], subscripting, truthiness,
    [+=], [*]), each raising the exception Python raises.  Effects (HTTP
    requests, sleeps, standard output, model queries, the heap of mutable
    dictionaries) are threaded through a state-and-exception monad [M].
    Floats are idealised as rationals ([Q]); Python's own library functions
    whose output format is not of interest here ([repr], [float], [str] of an
    exception, [datetime.isoformat]) and the rounded product of two floats
    are fields of the class [Python].  The
    [while True] loop of the agent takes a bound on its iterations (fuel);
    the loop of [_get] is shown never to exhaust its own. *)

From Stdlib Require Import ZArith QArith Qround Qminmax Qpower String Ascii List Lia.
From stdpp Require Import base gmap strings list fin_maps.

Open Scope Z_scope.

(** ** Python values *)

#[warnings="-register-all"]
Inductive value :=
| VNone
| VBool (b : bool)
| VInt (z : Z)
| VFloat (q : Q)
| VStr (s : string)
| VList (l : list value)
| VDict (d : list (string * value)).

(** A mutable dictionary with string keys (the query parameters). *)
Abbreviation dict := (gmap string value).
Abbreviation loc := positive.

(** ** HTTP responses and exceptions *)

Record Response := {
  status_code : Z;
  (** [resp.headers.get(name)] *)
  headers_get : string → option string;
  (** [resp.json()]; [None] when the body is not valid JSON *)
  json : option value;
}.

(** The subclasses of [httpx.TransportError] that [client.get] may raise. *)
Inductive httpx_error :=
| ConnectError | ReadTimeout | WriteError | RemoteProtocolError
| ConnectTimeout | WriteTimeout | PoolTimeout | ReadError | CloseError
| LocalProtocolError | ProxyError | UnsupportedProtocol.

Inductive exn :=
| ValueError (msg : string)
| KeyError (key : string)
| IndexError
| TypeError
| AttributeError (attr : string)
| OverflowError
| RuntimeError (msg : string)
| JSONDecodeError
| ValidationError
| HTTPStatusError (resp : Response)
| TransportError (e : httpx_error)
| ModelError (msg : string).

(** ** Messages of the conversation *)

Record ToolCall := {
  tc_name : string;   (* tool_call["name"] *)
  tc_args : value;    (* tool_call["args"] *)
  tc_id : string;     (* tool_call["id"] *)
}.

Record Usage := {
  input_tokens : Z;
  output_tokens : Z;
  total_tokens : Z;
}.

Record AIMessage := {
  content : string;
  tool_calls : list ToolCall;
  usage_metadata : Usage;
}.

Inductive Message :=
| SystemMessage (text : string)
| HumanMessage (text : string)
| AI (response : AIMessage)
| ToolMessage (text : string) (tool_call_id : string).

(** ** Outcomes of a computation *)

Inductive Outcome (A : Type) :=
| Ok (a : A)
| Raise (e : exn)
| OutOfFuel.
Arguments Ok {A} a.
Arguments Raise {A} e.
Arguments OutOfFuel {A}.

(** ** Observable events *)

(** What the code writes to standard output. *)
Inductive Stdout :=
| OutUrl (path : string) (qp : dict)          (* print(resp.url) *)
| OutCity (city : string)                     (* print("city from tool:", city) *)
| OutLat (lat : value)                        (* print("lat from weather tool:", lat) *)
| OutToolCalls (calls : list ToolCall)        (* print("Tool", response.tool_calls) *)
| OutResult (result : value)                  (* print("result:", result) *)
| OutUsage (tally : Usage).                   (* print(input_Tokens, output_Tokens, total_Tokens) *)

Inductive Event :=
| EvRequest (path : string) (qp : dict)       (* self._client.get(path, params=qp) *)
| EvSleep (seconds : Q)                       (* asyncio.sleep(seconds) *)
| EvClose                                     (* self._client.aclose() *)
| EvModel (messages : list Message) (answer : Outcome AIMessage)
                                              (* self.llm_with_tools.ainvoke(messages) *)
| EvTool (name : string) (args : value)       (* tool.ainvoke(tool_args) *)
| EvStdout (line : Stdout).

(** ** The world the program runs in *)

(** [settings.py] *)
Record Settings := {
  app_name : string;
  environment : string;
  log_level : string;
  google_api_key : string;
  default_units : string;
  default_lang : string;
  weather_api_key : option string;
  air_quality_api_key : option string;
  geocoding_api_key : option string;
  timezone_api_key : option string;
}.

Inductive HttpOutcome :=
| Responded (resp : Response)
| Failed (e : httpx_error).

(** The collaborators of the program: what [Settings()] reads, what the
    provider answers to the n-th request, what the language model answers
    to the n-th query, and the clock. *)
Class Environment := {
  settings : Settings;
  http : nat → string → dict → HttpOutcome;
  (** the answer to the n-th query, or the exception the query raises *)
  llm : nat → list Message → Outcome AIMessage;
  (** [datetime.utcnow()], in microseconds since the epoch *)
  utcnow : Z;
  (** offset of the local time zone, in seconds, at a given epoch second *)
  utcoffset : Z → Z;
}.

(** Library functions of Python left abstract. *)
Class Python := {
  (** [repr(v)] *)
  py_repr : value → string;
  (** [float(s)]; [None] stands for [ValueError] *)
  py_float : string → option Q;
  (** [x * y] on floats: the product, rounded to the nearest float *)
  py_float_mul : Q → Q → Q;
  (** [str(e)] for an exception *)
  str_exn : exn → string;
  (** [datetime.isoformat()] of a naive date, given in microseconds *)
  isoformat : Z → string;
}.

Record World := {
  heap : gmap loc dict;
  requests : nat;        (* HTTP requests sent so far *)
  queries : nat;         (* model queries made so far *)
  log : list Event;      (* events, oldest first *)
}.

(** ** The monad of effects *)

Definition M (A : Type) : Type := World → Outcome A * World.

#[global] Instance M_ret : MRet M := λ A a w, (Ok a, w).
#[global] Instance M_bind : MBind M := λ A B f m w,
  match m w with
  | (Ok a, w') => f a w'
  | (Raise e, w') => (Raise e, w')
  | (OutOfFuel, w') => (OutOfFuel, w')
  end.

Definition raise {A} (e : exn) : M A := λ w, (Raise e, w).
Definition out_of_fuel {A} : M A := λ w, (OutOfFuel, w).

(** [try: body except Exception as e: handler(e)] *)
Definition try_except {A} (body : M A) (handler : exn → M A) : M A := λ w,
  match body w with
  | (Raise e, w') => handler e w'
  | r => r
  end.

(** [try: body finally: final] *)
Definition try_finally {A} (body : M A) (final : M unit) : M A := λ w,
  match body w with
  | (Ok a, w') => match final w' with
                  | (Ok _, w'') => (Ok a, w'')
                  | (Raise e, w'') => (Raise e, w'')
                  | (OutOfFuel, w'') => (OutOfFuel, w'')
                  end
  | (Raise e, w') => match final w' with
                     | (Ok _, w'') => (Raise e, w'')
                     | (Raise e', w'') => (Raise e', w'')
                     | (OutOfFuel, w'') => (OutOfFuel, w'')
                     end
  | (OutOfFuel, w') => (OutOfFuel, w')
  end.

Definition emit (e : Event) : M unit := λ w,
  (Ok tt, {| heap := heap w; requests := requests w; queries := queries w;
             log := log w ++ [e] |}).

Definition print (line : Stdout) : M unit := emit (EvStdout line).

(** Allocation of a new dictionary object. *)
Definition alloc (d : dict) : M loc := λ w,
  let l := fresh (dom (heap w)) in
  (Ok l, {| heap := <[l := d]> (heap w); requests := requests w;
            queries := queries w; log := log w |}).

(** The dictionary a reference points to. *)
Definition deref (l : loc) : M dict := λ w,
  (Ok (default ∅ (heap w !! l)), w).

(** [d[k] = v] on the dictionary object at [l]. *)
Definition setitem (l : loc) (k : string) (v : value) : M unit := λ w,
  (Ok tt, {| heap := alter (λ d, <[k := v]> d) l (heap w); requests := requests w;
             queries := queries w; log := log w |}).

(** [await self._client.get(path, params=qp)]: the provider answers. *)
Definition client_get `{E : Environment} (path : string) (qp : loc) : M HttpOutcome := λ w,
  let d := default ∅ (heap w !! qp) in
  (Ok (http (requests w) path d),
   {| heap := heap w; requests := S (requests w); queries := queries w;
      log := log w ++ [EvRequest path d] |}).

(** [await self.llm_with_tools.ainvoke(messages)] *)
Definition ask_model `{E : Environment} (messages : list Message) : M AIMessage := λ w,
  let answer := llm (queries w) messages in
  (answer,
   {| heap := heap w; requests := requests w; queries := S (queries w);
      log := log w ++ [EvModel messages answer] |}).

(** ** Python operations on values *)

(** [bool(v)] *)
Definition truthy (v : value) : bool :=
  match v with
  | VNone => false
  | VBool b => b
  | VInt z => negb (z =? 0)
  | VFloat q => negb (Qeq_bool q 0)
  | VStr s => negb (String.eqb s "")
  | VList l => match l with [] => false | _ => true end
  | VDict d => match d with [] => false | _ => true end
  end.

(** [str(v)]: a string is itself, anything else prints as its [repr]. *)
Definition py_str `{P : Python} (v : value) : string :=
  match v with
  | VStr s => s
  | _ => py_repr v
  end.

Fixpoint assoc (k : string) (d : list (string * value)) : option value :=
  match d with
  | [] => None
  | (k', v) :: d' => if String.eqb k k' then Some v else assoc k d'
  end.

(** [v.get(k, dflt)]: only dictionaries have a [get] method. *)
Definition dict_get (v : value) (k : string) (dflt : value) : M value :=
  match v with
  | VDict d => mret (default dflt (assoc k d))
  | _ => raise (AttributeError "get")
  end.

(** [v[k]] for a string key. *)
Definition getitem (v : value) (k : string) : M value :=
  match v with
  | VDict d => match assoc k d with
               | Some x => mret x
               | None => raise (KeyError k)
               end
  | _ => raise TypeError
  end.

(** [v[0]]: the keys of a JSON dictionary are strings, so [0] is never one. *)
Definition subscript0 (v : value) : M value :=
  match v with
  | VList (x :: _) => mret x
  | VList [] => raise IndexError
  | VStr (String c _) => mret (VStr (String c ""))
  | VStr EmptyString => raise IndexError
  | VDict _ => raise (KeyError "0")
  | _ => raise TypeError
  end.

Fixpoint chars (s : string) : list value :=
  match s with
  | EmptyString => []
  | String c s' => VStr (String c "") :: chars s'
  end.

(** [v += s] for a string [s]: concatenation on a string, [extend] on a list. *)
Definition iadd_str (v : value) (s : string) : M value :=
  match v with
  | VStr n => mret (VStr (n +:+ s))
  | VList l => mret (VList (l ++ chars s))
  | _ => raise TypeError
  end.

Fixpoint repeat_string (n : nat) (s : string) : string :=
  match n with
  | O => ""
  | S n' => s +:+ repeat_string n' s
  end.

(** [v * 100]: exact on integers, rounded on floats. *)
Definition times100 `{P : Python} (v : value) : M value :=
  match v with
  | VBool b => mret (VInt (if b then 100 else 0))
  | VInt z => mret (VInt (z * 100))
  | VFloat q => mret (VFloat (py_float_mul q 100))
  | VStr s => mret (VStr (repeat_string 100 s))
  | VList l => mret (VList (concat (replicate 100 l)))
  | _ => raise TypeError
  end.

(** ** clients/openWeatherAPI.py *)

Record OpenWeatherClient := {
  api_key : string;
  base_url : string;
  max_retries : Z;
  backoff_factor : Q;
}.

(** [s.rstrip("/")] *)
Fixpoint rstrip_slash (s : string) : string :=
  match s with
  | EmptyString => EmptyString
  | String c s' =>
      match rstrip_slash s' with
      | EmptyString => if Ascii.eqb c "/" then EmptyString else String c EmptyString
      | t => String c t
      end
  end.

(** [a or b] on optional strings *)
Definition or_string (a b : option string) : option string :=
  match a with
  | Some s => if String.eqb s "" then b else a
  | None => b
  end.

(** [OpenWeatherClient.__init__] *)
Definition OpenWeatherClient__init__ `{E : Environment} (key : option string) (url : string)
    (timeout_seconds : Q) (retries : Z) (backoff : Q) : M OpenWeatherClient :=
  match or_string key (weather_api_key settings) with
  | None => raise (ValueError "OpenWeather API key not configured (weather_api_key).")
  | Some k =>
      if String.eqb k "" then
        raise (ValueError "OpenWeather API key not configured (weather_api_key).")
      else
        mret {| api_key := k; base_url := rstrip_slash url;
                max_retries := Z.max 1 retries; backoff_factor := backoff |}
  end.

(** [OpenWeatherClient()] with the default arguments *)
Definition new_client `{E : Environment} : M OpenWeatherClient :=
  OpenWeatherClient__init__ None "https://api.openweathermap.org" 10 3 (1 # 2).

Definition aclose (self : OpenWeatherClient) : M unit := emit EvClose.

(** [max(a, b)] of Python: [b] when [b > a], else [a]. *)
Definition py_max (a b : Q) : Q :=
  if Qlt_le_dec a b then b else a.

(** [OpenWeatherClient._compute_delay] *)
Definition _compute_delay `{P : Python} (self : OpenWeatherClient) (attempt : Z)
    (resp : option Response) : Q :=
  let base := (backoff_factor self * 2 ^ (attempt - 1))%Q in
  match resp with
  | Some r =>
      if status_code r =? 429 then
        match headers_get r "Retry-After" with
        | Some ra =>
            if negb (String.eqb ra "") then
              match py_float ra with
              | Some seconds => py_max seconds base
              | None => base
              end
            else base
        | None => base
        end
      else base
  | None => base
  end.

(** [resp.raise_for_status()] of httpx: any status outside 2xx raises. *)
Definition is_success (status : Z) : bool :=
  (200 <=? status) && (status <=? 299).

Definition raise_for_status (resp : Response) : M unit :=
  if is_success (status_code resp) then mret tt else raise (HTTPStatusError resp).

(** [resp.json()] *)
Definition resp_json (resp : Response) : M value :=
  match json resp with
  | Some v => mret v
  | None => raise JSONDecodeError
  end.

Definition retried_status (status : Z) : bool :=
  (status =? 429) || ((500 <=? status) && (status <? 600)).

(** The transport errors caught by the [except] clause of [_get]. *)
Definition retried_error (e : httpx_error) : bool :=
  match e with
  | ConnectError | ReadTimeout | WriteError | RemoteProtocolError => true
  | _ => false
  end.

(** The [while attempt < self.max_retries] loop of [_get].  Each iteration
    increments [attempt], so [fuel] iterations are enough as soon as
    [max_retries - attempt <= fuel]. *)
Fixpoint _get_loop `{E : Environment} `{P : Python} (self : OpenWeatherClient)
    (path : string) (qp : loc) (fuel : nat) (attempt : Z)
    (last_exc : option exn) : M value :=
  if attempt <? max_retries self then
    match fuel with
    | O => out_of_fuel
    | S fuel' =>
        let attempt := attempt + 1 in
        o ← client_get path qp;
        match o with
        | Responded resp =>
            d ← deref qp;
            print (OutUrl path d);;
            let finish := raise_for_status resp;; resp_json resp in
            if retried_status (status_code resp) then
              let delay := _compute_delay self attempt (Some resp) in
              if attempt <? max_retries self then
                emit (EvSleep delay);;
                _get_loop self path qp fuel' attempt last_exc
              else finish
            else finish
        | Failed e =>
            if retried_error e then
              if attempt <? max_retries self then
                emit (EvSleep (_compute_delay self attempt None));;
                _get_loop self path qp fuel' attempt (Some (TransportError e))
              else raise (TransportError e)
            else raise (TransportError e)
        end
    end
  else
    match last_exc with
    | Some e => raise e
    | None => raise (RuntimeError "OpenWeather request failed without an exception.")
    end.

(** [params or {}]: [None] and the empty dictionary are falsy. *)
Definition params_or_empty (params : option loc) : M loc :=
  match params with
  | Some p =>
      d ← deref p;
      if bool_decide (d = ∅) then alloc ∅ else mret p
  | None => alloc ∅
  end.

(** [OpenWeatherClient._get] *)
Definition _get `{E : Environment} `{P : Python} (self : OpenWeatherClient)
    (path : string) (params : option loc) : M value :=
  src ← params_or_empty params;
  d ← deref src;
  qp ← alloc d;                                   (* qp = dict(params or {}) *)
  setitem qp "appid" (VStr (api_key self));;      (* qp["appid"] = self.api_key *)
  _get_loop self path qp (Z.to_nat (max_retries self)) 0 None.

(** [if lang: params["lang"] = lang] *)
Definition set_lang (params : loc) (lang : option string) : M unit :=
  match lang with
  | Some l => if String.eqb l "" then mret tt else setitem params "lang" (VStr l)
  | None => mret tt
  end.

(** [OpenWeatherClient.geocode_direct] *)
Definition geocode_direct `{E : Environment} `{P : Python} (self : OpenWeatherClient)
    (q : string) (limit : Z) (lang : option string) : M value :=
  params ← alloc (<["limit" := VInt limit]> {["q" := VStr q]});
  set_lang params lang;;
  _get self "/geo/1.0/direct" (Some params).

(** [OpenWeatherClient.current_weather] *)
Definition current_weather `{E : Environment} `{P : Python} (self : OpenWeatherClient)
    (lat lon : value) (units : string) (lang : option string) : M value :=
  params ← alloc (<["units" := VStr units]> (<["lon" := lon]> {["lat" := lat]}));
  set_lang params lang;;
  _get self "/data/2.5/weather" (Some params).

(** [async with OpenWeatherClient() as client: body] *)
Definition with_client `{E : Environment} {A} (body : OpenWeatherClient → M A) : M A :=
  client ← new_client;
  try_finally (body client) (aclose client).

(** ** tools/weather_tools.py *)

(** [if place.get(key): normalized_name += f", {place[key]}"] *)
Definition append_part `{P : Python} (place : value) (key : string)
    (normalized_name : value) : M value :=
  present ← dict_get place key VNone;
  if truthy present then
    part ← getitem place key;
    iadd_str normalized_name (", " +:+ py_str part)
  else mret normalized_name.

(** [city_to_coords] *)
Definition city_to_coords `{E : Environment} `{P : Python} (city : string) : M value :=
  print (OutCity city);;
  with_client (λ client,
    results ← geocode_direct client city 1 (Some (default_lang settings));
    if negb (truthy results) then
      mret (VDict [("error", VStr ("Could not find coordinates for '" +:+ city +:+ "'"));
                   ("lat", VNone);
                   ("lon", VNone);
                   ("normalized_name", VNone)])
    else
      place ← subscript0 results;
      normalized_name ← dict_get place "name" (VStr "");
      normalized_name ← append_part place "state" normalized_name;
      normalized_name ← append_part place "country" normalized_name;
      lat ← getitem place "lat";
      lon ← getitem place "lon";
      mret (VDict [("lat", lat);
                   ("lon", lon);
                   ("normalized_name", normalized_name)])).

Definition temp_unit_of (units : string) : string :=
  if String.eqb units "metric" then "°C"
  else if String.eqb units "imperial" then "°F" else "K".

Definition wind_unit_of (units : string) : string :=
  if String.eqb units "metric" then "m/s"
  else if String.eqb units "imperial" then "mph" else "m/s".

(** The [try] block of [get_current_weather]. *)
Definition current_weather_body `{E : Environment} `{P : Python} (lat lon : value)
    (units : string) : M value :=
  raw ← with_client (λ client,
           current_weather client lat lon units (Some (default_lang settings)));
  main ← dict_get raw "main" (VDict []);
  weathers ← dict_get raw "weather" (VList [VDict []]);
  weather ← subscript0 weathers;
  wind ← dict_get raw "wind" (VDict []);
  clouds ← dict_get raw "clouds" (VDict []);
  let temp_unit := temp_unit_of units in
  let wind_unit := wind_unit_of units in
  temp ← dict_get main "temp" VNone;
  feels_like ← dict_get main "feels_like" VNone;
  condition ← dict_get weather "main" (VStr "Unknown");
  description ← dict_get weather "description" (VStr "");
  wind_speed ← dict_get wind "speed" VNone;
  wind_deg ← dict_get wind "deg" VNone;
  humidity ← dict_get main "humidity" VNone;
  cloud_all ← dict_get clouds "all" VNone;
  pressure ← dict_get main "pressure" VNone;
  visibility ← dict_get raw "visibility" VNone;
  mret (VDict [("temp", temp);
               ("temp_unit", VStr temp_unit);
               ("feels_like", feels_like);
               ("condition", condition);
               ("description", description);
               ("wind_speed", wind_speed);
               ("wind_unit", VStr wind_unit);
               ("wind_deg", wind_deg);
               ("humidity", humidity);
               ("clouds", cloud_all);
               ("pressure", pressure);
               ("visibility", visibility)]).

(** The [except Exception as e] block of [get_current_weather]. *)
Definition current_weather_error `{P : Python} (e : exn) : value :=
  VDict [("error", VStr ("Failed to fetch weather data: " +:+ str_exn e));
         ("temp", VNone);
         ("feels_like", VNone);
         ("condition", VNone);
         ("description", VNone);
         ("wind_speed", VNone);
         ("humidity", VNone);
         ("clouds", VNone)].

(** [get_current_weather] *)
Definition get_current_weather `{E : Environment} `{P : Python} (lat lon : value)
    (units : string) : M value :=
  print (OutLat lat);;
  try_except (current_weather_body lat lon units)
             (λ e, mret (current_weather_error e)).

(** The keys of a result, in order. *)
Definition keys (v : value) : list string :=
  match v with
  | VDict d => d.*1
  | _ => []
  end.

(** ** Naive dates (datetime) as microseconds since 1970-01-01T00:00:00 *)

Definition usec_per_second : Z := 1000000.
Definition usec_per_hour : Z := 3600 * usec_per_second.
Definition usec_per_day : Z := 24 * usec_per_hour.

(** [datetime.min] and [datetime.max] *)
Definition datetime_min : Z := -62135596800 * usec_per_second.
Definition datetime_max : Z := 253402300799 * usec_per_second + 999999.

Definition in_range (t : Z) : bool :=
  (datetime_min <=? t) && (t <=? datetime_max).

(** [t + timedelta(...)], the difference given in microseconds *)
Definition dt_add (t delta : Z) : M Z :=
  if in_range (t + delta) then mret (t + delta) else raise OverflowError.

(** [t.replace(hour=h, minute=0, second=0, microsecond=0)] *)
Definition at_hour (t h : Z) : Z :=
  t / usec_per_day * usec_per_day + h * usec_per_hour.

(** [t.hour] *)
Definition hour_of (t : Z) : Z := t mod usec_per_day / usec_per_hour.

(** [t.weekday()]: Monday is 0; 1970-01-01 was a Thursday. *)
Definition weekday (t : Z) : Z := (t / usec_per_day + 3) mod 7.

(** [round(x)] of Python: to the nearest integer, ties to the even one. *)
Definition round_half_even (x : Q) : Z :=
  let f := Qfloor x in
  match (x - inject_Z f ?= 1 # 2)%Q with
  | Lt => f
  | Gt => f + 1
  | Eq => if Z.even f then f else f + 1
  end.

(** Local naive date of an epoch second count. *)
Definition local_usec `{E : Environment} (seconds : Z) (usec : Z) : M Z :=
  let t := usec + utcoffset seconds * usec_per_second in
  if in_range t then mret t else raise (ValueError "year is out of range").

(** [datetime.fromtimestamp(v)] *)
Definition fromtimestamp `{E : Environment} (v : value) : M Z :=
  match v with
  | VInt z => local_usec z (z * usec_per_second)
  | VBool b => let z := if b then 1 else 0 in local_usec z (z * usec_per_second)
  | VFloat q => local_usec (Qfloor q) (round_half_even (q * inject_Z usec_per_second))
  | _ => raise TypeError
  end.

(** ** tools/forecast_tools.py *)

(** Modelled from the spec: [OpenWeatherClient.forecast_5day], which
    [get_forecast] calls, is not defined in clients/openWeatherAPI.py.  The
    spec describes it as the provider's 5-day/3-hour forecast endpoint, taking
    the same parameters as the current-weather endpoint. *)
Definition forecast_5day `{E : Environment} `{P : Python} (self : OpenWeatherClient)
    (lat lon : value) (units : string) (lang : option string) : M value :=
  params ← alloc (<["units" := VStr units]> (<["lon" := lon]> {["lat" := lat]}));
  set_lang params lang;;
  _get self "/data/2.5/forecast" (Some params).

(** [for entry in v]: a list yields its items, a string its characters, a
    dictionary its keys. *)
Definition iterate (v : value) : M (list value) :=
  match v with
  | VList l => mret l
  | VStr s => mret (chars s)
  | VDict d => mret (VStr <$> d.*1)
  | _ => raise TypeError
  end.

(** [datetime.fromtimestamp(entry["dt"])] *)
Definition entry_time `{E : Environment} (entry : value) : M Z :=
  dt ← getitem entry "dt";
  fromtimestamp dt.

(** The items of a comprehension that satisfy its condition. *)
Fixpoint select_items `{E : Environment} (keep : Z → bool) (items : list value)
    : M (list value) :=
  match items with
  | [] => mret []
  | entry :: rest =>
      t ← entry_time entry;
      rest' ← select_items keep rest;
      mret (if keep t then entry :: rest' else rest')
  end.

(** [[entry for entry in forecast_list if keep(datetime.fromtimestamp(entry["dt"]))]] *)
Definition select `{E : Environment} (keep : Z → bool) (forecast_list : value)
    : M (list value) :=
  items ← iterate forecast_list;
  select_items keep items.

(** The filter of [get_forecast] by time frame. *)
Definition filter_entries `{E : Environment} (timeframe : string) (now : Z)
    (forecast_list : value) : M (list value) :=
  if String.eqb timeframe "tonight" then
    let tonight_start := at_hour now 18 in
    let tonight_start := if 18 <=? hour_of now then now else tonight_start in
    next ← dt_add now usec_per_day;
    let tonight_end := at_hour next 6 in
    select (λ t, (tonight_start <=? t) && (t <=? tonight_end)) forecast_list
  else if String.eqb timeframe "tomorrow" then
    next ← dt_add now usec_per_day;
    let tomorrow_start := at_hour next 0 in
    tomorrow_end ← dt_add tomorrow_start usec_per_day;
    select (λ t, (tomorrow_start <=? t) && (t <? tomorrow_end)) forecast_list
  else if String.eqb timeframe "weekend" then
    let days_until_saturday := (5 - weekday now) mod 7 in
    let days_until_saturday :=
      if (days_until_saturday =? 0) && (12 <=? hour_of now) then 7
      else days_until_saturday in
    sat ← dt_add now (days_until_saturday * usec_per_day);
    let weekend_start := at_hour sat 0 in
    weekend_end ← dt_add weekend_start (2 * usec_per_day);
    select (λ t, (weekend_start <=? t) && (t <? weekend_end)) forecast_list
  else
    end_time ← dt_add now (72 * usec_per_hour);
    select (λ t, t <=? end_time) forecast_list.

(** One iteration of the normalisation loop of [get_forecast]. *)
Definition normalize_entry `{E : Environment} `{P : Python} (temp_unit : string)
    (entry : value) : M value :=
  main ← dict_get entry "main" (VDict []);
  weathers ← dict_get entry "weather" (VList [VDict []]);
  weather ← subscript0 weathers;
  wind ← dict_get entry "wind" (VDict []);
  t ← entry_time entry;
  timestamp ← getitem entry "dt";
  temp ← dict_get main "temp" VNone;
  feels_like ← dict_get main "feels_like" VNone;
  temp_min ← dict_get main "temp_min" VNone;
  temp_max ← dict_get main "temp_max" VNone;
  condition ← dict_get weather "main" (VStr "Unknown");
  description ← dict_get weather "description" (VStr "");
  pop ← dict_get entry "pop" (VInt 0);
  precipitation_prob ← times100 pop;
  wind_speed ← dict_get wind "speed" VNone;
  humidity ← dict_get main "humidity" VNone;
  clouds ← dict_get entry "clouds" (VDict []);
  cloud_all ← dict_get clouds "all" VNone;
  mret (VDict [("datetime", VStr (isoformat t));
               ("timestamp", timestamp);
               ("temp", temp);
               ("temp_unit", VStr temp_unit);
               ("feels_like", feels_like);
               ("temp_min", temp_min);
               ("temp_max", temp_max);
               ("condition", condition);
               ("description", description);
               ("precipitation_prob", precipitation_prob);
               ("wind_speed", wind_speed);
               ("humidity", humidity);
               ("clouds", cloud_all)]).

Fixpoint normalize_all `{E : Environment} `{P : Python} (temp_unit : string)
    (entries : list value) : M (list value) :=
  match entries with
  | [] => mret []
  | entry :: rest =>
      n ← normalize_entry temp_unit entry;
      ns ← normalize_all temp_unit rest;
      mret (n :: ns)
  end.

(** The [try] block of [get_forecast]. *)
Definition forecast_body `{E : Environment} `{P : Python} (lat lon : value)
    (timeframe units : string) : M value :=
  raw ← with_client (λ client,
           forecast_5day client lat lon units (Some (default_lang settings)));
  forecast_list ← dict_get raw "list" (VList []);
  if negb (truthy forecast_list) then
    mret (VDict [("error", VStr "No forecast data available");
                 ("entries", VList [])])
  else
    let temp_unit := temp_unit_of units in
    let now := utcnow in
    filtered_entries ← filter_entries timeframe now forecast_list;
    normalized ← normalize_all temp_unit filtered_entries;
    mret (VDict [("timeframe", VStr timeframe);
                 ("entries", VList normalized);
                 ("count", VInt (Z.of_nat (length normalized)))]).

(** [get_forecast] *)
Definition get_forecast `{E : Environment} `{P : Python} (lat lon : value)
    (timeframe units : string) : M value :=
  try_except (forecast_body lat lon timeframe units)
    (λ e, mret (VDict [("error", VStr ("Failed to fetch forecast data: " +:+ str_exn e));
                       ("timeframe", VStr timeframe);
                       ("entries", VList []);
                       ("count", VInt 0)])).

(** ** prompts/system_prompts.py *)

Definition TOOL_SYSTEM_PROMPTS : gmap string string :=
  <["get_current_weather" :=
"You have received current weather data for a location.
Present this information in a clear, conversational way:
- Lead with the current temperature and condition
- Mention feels-like temperature if significantly different
- Include wind speed and humidity when relevant
- Use appropriate units based on the data provided
- Keep the response concise but informative

If there's an error field, inform the user that weather data is temporarily unavailable and suggest trying again."]>
  {["city_to_coords" :=
"You have received geographic coordinates for a location.
Use these coordinates to fetch weather data if needed.
If the location was not found (error field present), politely ask the user to provide a more specific city name or verify the spelling."]}.

(** [get_tool_prompt] *)
Definition get_tool_prompt (tool_name : string) : string :=
  default "Process the tool result and provide a helpful response to the user."
          (TOOL_SYSTEM_PROMPTS !! tool_name).

(** ** agents/weather_agent.py *)

(** A tool as the agent sees it: a name and [ainvoke]. *)
Record BaseTool := {
  name : string;
  ainvoke : value → M value;
}.

(** The tool decorator validates the arguments against the signature of the
    function before calling it. *)
Definition arg_float (d : list (string * value)) (k : string) : M value :=
  match assoc k d with
  | Some (VFloat q) => mret (VFloat q)
  | Some (VInt z) => mret (VFloat (inject_Z z))
  | _ => raise ValidationError
  end.

Definition arg_str (d : list (string * value)) (k : string)
    (dflt : option string) : M string :=
  match assoc k d, dflt with
  | Some (VStr s), _ => mret s
  | None, Some s => mret s
  | _, _ => raise ValidationError
  end.

Definition city_to_coords_tool `{E : Environment} `{P : Python} : BaseTool := {|
  name := "city_to_coords";
  ainvoke := λ args,
    match args with
    | VDict d => city ← arg_str d "city" None; city_to_coords city
    | _ => raise ValidationError
    end;
|}.

Definition get_current_weather_tool `{E : Environment} `{P : Python} : BaseTool := {|
  name := "get_current_weather";
  ainvoke := λ args,
    match args with
    | VDict d =>
        lat ← arg_float d "lat";
        lon ← arg_float d "lon";
        units ← arg_str d "units" (Some "metric");
        get_current_weather lat lon units
    | _ => raise ValidationError
    end;
|}.

Record WeatherAgent := {
  tools : list BaseTool;
  tool_map : gmap string BaseTool;
  system_prompt : string;
}.

(** [{tool.name: tool for tool in tools}]: a later tool replaces an earlier
    one of the same name. *)
Definition make_tool_map (tools : list BaseTool) : gmap string BaseTool :=
  foldl (λ m tool, <[name tool := tool]> m) ∅ tools.

(** [WeatherAgent.__init__] *)
Definition WeatherAgent__init__ `{E : Environment} `{P : Python} : WeatherAgent :=
  let tools := [city_to_coords_tool; get_current_weather_tool] in
  {| tools := tools;
     tool_map := make_tool_map tools;
     system_prompt := "You are a helpful weather assistant. Provide clear, concise weather information. Ask for clarification if location is unclear." |}.

Definition zero_usage : Usage :=
  {| input_tokens := 0; output_tokens := 0; total_tokens := 0 |}.

Definition add_usage (tally u : Usage) : Usage :=
  {| input_tokens := input_tokens tally + input_tokens u;
     output_tokens := output_tokens tally + output_tokens u;
     total_tokens := total_tokens tally + total_tokens u |}.

(** The body of [for tool_call in response.tool_calls] for one call. *)
Definition handle_tool_call `{P : Python} (self : WeatherAgent) (tool_call : ToolCall)
    (messages : list Message) : M (list Message) :=
  let tool_name := tc_name tool_call in
  let tool_args := tc_args tool_call in
  let tool_id := tc_id tool_call in
  match tool_map self !! tool_name with
  | Some tool =>
      emit (EvTool tool_name tool_args);;
      result ← ainvoke tool tool_args;
      print (OutResult result);;
      let tool_context := get_tool_prompt tool_name in
      mret (messages ++ [SystemMessage tool_context]
                     ++ [ToolMessage (py_str result) tool_id])
  | None => mret messages
  end.

(** [for tool_call in response.tool_calls: ...] *)
Fixpoint run_tool_calls `{P : Python} (self : WeatherAgent) (calls : list ToolCall)
    (messages : list Message) : M (list Message) :=
  match calls with
  | [] => mret messages
  | tool_call :: rest =>
      messages ← handle_tool_call self tool_call messages;
      run_tool_calls self rest messages
  end.

(** One iteration of the [while True] loop of [invoke]: either the final
    answer, or the messages and the tally of the next iteration. *)
Inductive Turn :=
| Final (response : AIMessage)
| Next (messages : list Message) (tally : Usage).

Definition turn `{E : Environment} `{P : Python} (self : WeatherAgent) (message : string)
    (messages : list Message) (tally : Usage) : M Turn :=
  response ← ask_model messages;
  let tally := add_usage tally (usage_metadata response) in
  print (OutToolCalls (tool_calls response));;
  let messages := [SystemMessage (system_prompt self);
                   HumanMessage message;
                   AI response] in
  match tool_calls response with
  | [] =>
      print (OutUsage tally);;
      mret (Final response)
  | calls =>
      messages ← run_tool_calls self calls messages;
      mret (Next messages tally)
  end.

(** The [while True] loop; the source has no bound on the iterations. *)
Fixpoint invoke_loop `{E : Environment} `{P : Python} (self : WeatherAgent)
    (message : string) (fuel : nat) (messages : list Message) (tally : Usage)
    : M AIMessage :=
  match fuel with
  | O => out_of_fuel
  | S fuel' =>
      t ← turn self message messages tally;
      match t with
      | Final response => mret response
      | Next messages tally => invoke_loop self message fuel' messages tally
      end
  end.

(** [WeatherAgent.invoke] *)
Definition invoke `{E : Environment} `{P : Python} (self : WeatherAgent)
    (message : string) (fuel : nat) : M AIMessage :=
  invoke_loop self message fuel
    [SystemMessage (system_prompt self); HumanMessage message] zero_usage.

(** ** Observations on runs *)

(** The delays slept for, in order. *)
Definition sleeps (l : list Event) : list Q :=
  omap (λ e, match e with EvSleep s => Some s | _ => None end) l.

(** The tools invoked, in order. *)
Definition tools_invoked (l : list Event) : list string :=
  omap (λ e, match e with EvTool n _ => Some n | _ => None end) l.

(** The parameters of the requests sent, in order. *)
Definition requests_sent (l : list Event) : list (string * dict) :=
  omap (λ e, match e with EvRequest p d => Some (p, d) | _ => None end) l.

(** The usage counters of the answers of the model, summed. *)
Definition usage_of_event (e : Event) : Usage :=
  match e with
  | EvModel _ (Ok r) => usage_metadata r
  | _ => zero_usage
  end.

Definition usage_of_log (l : list Event) : Usage :=
  foldl (λ u e, add_usage u (usage_of_event e)) zero_usage l.

Definition is_model_event (e : Event) : bool :=
  match e with
  | EvModel _ _ => true
  | _ => false
  end.

(** The call identifiers of the tool results of a conversation, in order. *)
Definition tool_result_ids (ms : list Message) : list string :=
  omap (λ m, match m with ToolMessage _ i => Some i | _ => None end) ms.

Definition registered (self : WeatherAgent) (tool_call : ToolCall) : bool :=
  bool_decide (is_Some (tool_map self !! tc_name tool_call)).

(** The messages that answer the calls, given the text of each result. *)
Fixpoint answers (calls : list ToolCall) (texts : list string) : list Message :=
  match calls, texts with
  | tool_call :: calls', text :: texts' =>
      SystemMessage (get_tool_prompt (tc_name tool_call))
        :: ToolMessage text (tc_id tool_call)
        :: answers calls' texts'
  | _, _ => []
  end.

(** The retried answers of the provider and the events they cause: each
    one is requested, printed and followed by a sleep. *)
Fixpoint retry_events `{P : Python} (self : OpenWeatherClient) (path : string)
    (qp : dict) (attempt : Z) (rs : list Response) : list Event :=
  match rs with
  | [] => []
  | r :: rs' =>
      [EvRequest path qp; EvStdout (OutUrl path qp);
       EvSleep (_compute_delay self (attempt + 1) (Some r))]
        ++ retry_events self path qp (attempt + 1) rs'
  end.

(** [sep.join(parts)] *)
Fixpoint join (sep : string) (parts : list string) : string :=
  match parts with
  | [] => ""
  | [p] => p
  | p :: ps => p +:+ sep +:+ join sep ps
  end.

(** A field of a place counts as present when it is a non-empty string. *)
Definition present (field : option value) : list string :=
  match field with
  | Some (VStr s) => if String.eqb s "" then [] else [s]
  | _ => []
  end.

(** A field that is absent, null or a string. *)
Definition textual (field : option value) : Prop :=
  match field with
  | None | Some VNone | Some (VStr _) => True
  | _ => False
  end.

(** The name of a place as the specification words it: the name, the state
    and the country, those present, separated by a comma and a space. *)
Definition joined_name (place : list (string * value)) (name : string) : string :=
  join ", " (name :: present (assoc "state" place) ++ present (assoc "country" place)).

(** The parameters [_get] sends for the caller's parameters. *)
Definition with_appid (self : OpenWeatherClient) (d : dict) : dict :=
  <["appid" := VStr (api_key self)]> d.

(** What [_get] does with the response it does not retry:
    [resp.raise_for_status()], then [resp.json()]. *)
Definition finish_outcome (r : Response) : Outcome value :=
  if is_success (status_code r) then
    match json r with
    | Some v => Ok v
    | None => Raise JSONDecodeError
    end
  else Raise (HTTPStatusError r).

(** The dictionary the caller of [_get] passes. *)
Definition params_dict (params : option loc) (w : World) : dict :=
  match params with
  | Some p => default ∅ (heap w !! p)
  | None => ∅
  end.

(** The parameters of a geocoding request. *)
Definition geocode_query (key city lang : string) : dict :=
  let base : dict := <["limit" := VInt 1]> {["q" := VStr city]} in
  <["appid" := VStr key]>
    (if String.eqb lang "" then base else <["lang" := VStr lang]> base).

(** The parameters of a request for the weather at a position. *)
Definition weather_query (key : string) (lat lon : value) (units lang : string) : dict :=
  let base : dict := <["units" := VStr units]> (<["lon" := lon]> {["lat" := lat]}) in
  <["appid" := VStr key]>
    (if String.eqb lang "" then base else <["lang" := VStr lang]> base).

(** A computation that cannot run out of fuel. *)
Definition terminates {A} (m : M A) : Prop :=
  ∀ w, (m w).1 ≠ OutOfFuel.

(** [v.get(k)] as an observation on a result. *)
Definition field (k : string) (v : value) : option value :=
  match v with
  | VDict d => assoc k d
  | _ => None
  end.

(** The local date of a forecast entry: [entry_time] does not depend on
    the world it runs in. *)
Definition time_of `{E : Environment} (entry : value) : Outcome Z :=
  (entry_time entry {| heap := ∅; requests := 0; queries := 0; log := [] |}).1.

(** An entry whose date is at most [end_time]. *)
Definition not_after `{E : Environment} (end_time : Z) (entry : value) : bool :=
  match time_of entry with
  | Ok t => t <=? end_time
  | _ => false
  end.

(** A tool that does not query the model. *)
Definition model_free {A} (m : M A) : Prop :=
  ∀ w, ∃ new, log (m w).2 = log w ++ new ∧
              Forall (λ e, is_model_event e = false) new.

(** An agent whose tools do not query the model. *)
Definition model_free_tools (self : WeatherAgent) : Prop :=
  ∀ tool_name tool args,
    tool_map self !! tool_name = Some tool → model_free (ainvoke tool args).

(** A computation that leaves the world as it is. *)
Definition pure {A} (m : M A) : Prop := ∀ w, (m w).2 = w.

(** ** Data for examples *)

Definition digit (c : ascii) : option Z :=
  let n := Z.of_N (N_of_ascii c) in
  if (48 <=? n) && (n <=? 57) then Some (n - 48) else None.

Fixpoint digits (s : string) (acc : Z) : option Z :=
  match s with
  | EmptyString => Some acc
  | String c s' => d ← digit c; digits s' (acc * 10 + d)
  end.

(** [float] on the unsigned decimal integers. *)
Definition decimal_float (s : string) : option Q :=
  match s with
  | EmptyString => None
  | _ => inject_Z <$> digits s 0
  end.

Definition exn_name (e : exn) : string :=
  match e with
  | ValueError msg => msg
  | KeyError key => "'" +:+ key +:+ "'"
  | IndexError => "list index out of range"
  | TypeError => "TypeError"
  | AttributeError attr => "object has no attribute '" +:+ attr +:+ "'"
  | OverflowError => "date value out of range"
  | RuntimeError msg => msg
  | JSONDecodeError => "Expecting value"
  | ValidationError => "validation error"
  | HTTPStatusError _ => "HTTPStatusError"
  | TransportError _ => "TransportError"
  | ModelError msg => msg
  end.

(** An instance of the library functions to run the definitions on examples:
    [float] reads unsigned decimal integers, the product of two floats is
    taken without rounding, [repr] does not look into its argument, a date
    prints as nothing. *)
Definition ExamplePython : Python := {|
  py_repr := λ _, "<value>";
  py_float := decimal_float;
  py_float_mul := Qmult;
  str_exn := exn_name;
  isoformat := λ _, "";
|}.

(** [Settings()] when only the key of the weather provider is configured. *)
Definition example_settings : Settings := {|
  app_name := "Weather Info Agent API";
  environment := "dev";
  log_level := "INFO";
  google_api_key := "please-give-valid-api-key";
  default_units := "auto";
  default_lang := "en";
  weather_api_key := Some "secret";
  air_quality_api_key := None;
  geocoding_api_key := None;
  timezone_api_key := None;
|}.

Definition empty_world : World :=
  {| heap := ∅; requests := 0; queries := 0; log := [] |}.

Definition response (status : Z) (body : option value) : Response :=
  {| status_code := status; headers_get := λ _, None; json := body |}.


(** The provider answers every request with the same response; the model
    follows a script and then fails; the clock reads [now] in UTC. *)
Definition example_env (resp : Response) (script : list AIMessage) (now : Z)
    : Environment := {|
  settings := example_settings;
  http := λ _ _ _, Responded resp;
  llm := λ n _, match script !! n with
                | Some r => Ok r
                | None => Raise (ModelError "no answer")
                end;
  utcnow := now;
  utcoffset := λ _, 0;
|}.

Definition example_client : OpenWeatherClient :=
  {| api_key := "secret"; base_url := "https://api.openweathermap.org";
     max_retries := 3; backoff_factor := 1 # 2 |}.


(** Candidates of the geocoding of "Paris". *)
Definition paris_fr : list (string * value) :=
  [("name", VStr "Paris"); ("lat", VFloat (4885 # 100)); ("lon", VFloat (235 # 100));
   ("country", VStr "FR"); ("state", VNone)].

Definition paris_texas : list (string * value) :=
  [("name", VStr "Paris"); ("lat", VFloat (3366 # 100)); ("lon", VFloat (-9555 # 100));
   ("country", VStr "US"); ("state", VStr "Texas")].

(** The provider returns these candidates to every request. *)
Definition geocoding_env (candidates : list value) : Environment :=
  example_env (response 200 (Some (VList candidates))) [] 0.

(** Forecast entries: one dated 1970-01-01T00:00:00, one an hour and one a
    hundred hours after 2024-10-04T00:00:00. *)
Definition entry_at (seconds : Z) : value := VDict [("dt", VInt seconds)].

Definition past_entry : value := entry_at 0.
Definition soon_entry : value := entry_at (20000 * 86400 + 3600).
Definition far_entry : value := entry_at (20000 * 86400 + 360000).

(** The provider returns the forecast made of [past_entry]; the clock reads
    2024-10-04T00:00:00 and the local time zone is UTC. *)
Definition forecast_env : Environment :=
  example_env (response 200 (Some (VDict [("list", VList [past_entry])]))) []
              (20000 * usec_per_day).

(** Tool calls of the model: one to a registered tool, one to a tool the
    agent does not register. *)
Definition call_locate : ToolCall :=
  {| tc_name := "city_to_coords";
     tc_args := VDict [("city", VStr "Paris")];
     tc_id := "call_1" |}.

Definition call_forecast : ToolCall :=
  {| tc_name := "get_forecast";
     tc_args := VDict [("lat", VFloat (4885 # 100)); ("lon", VFloat (235 # 100));
                       ("timeframe", VStr "tomorrow")];
     tc_id := "call_2" |}.

Definition asks (calls : list ToolCall) : AIMessage :=
  {| content := ""; tool_calls := calls;
     usage_metadata := {| input_tokens := 10; output_tokens := 5; total_tokens := 15 |} |}.

Definition final_answer : AIMessage :=
  {| content := "It is mild in Paris."; tool_calls := [];
     usage_metadata := {| input_tokens := 20; output_tokens := 7; total_tokens := 27 |} |}.

(** The model follows [script]; the provider geocodes Paris. *)
Definition agent_env (script : list AIMessage) : Environment :=
  example_env (response 200 (Some (VList [VDict paris_fr]))) script 0.

(** The agent of [WeatherAgent()] in that environment. *)
Definition example_agent (script : list AIMessage) : WeatherAgent :=
  WeatherAgent__init__ (E:=agent_env script) (P:=ExamplePython).

(** ** Further observations on a GET *)

(** An answer of the provider that [_get] retries when attempts remain: a
    429 or 5xx status, or one of the four transport errors it catches. *)
Definition retried (o : HttpOutcome) : bool :=
  match o with
  | Responded r => retried_status (status_code r)
  | Failed e => retried_error e
  end.

(** What [_get] makes of an answer it does not retry. *)
Definition final_outcome (o : HttpOutcome) : Outcome value :=
  match o with
  | Responded r => finish_outcome r
  | Failed e => Raise (TransportError e)
  end.

(** The events of an attempt that is retried: the request, the URL when a
    response came, the sleep. *)
Definition retried_attempt `{P : Python} (self : OpenWeatherClient) (path : string)
    (qp : dict) (attempt : Z) (o : HttpOutcome) : list Event :=
  match o with
  | Responded r =>
      [EvRequest path qp; EvStdout (OutUrl path qp);
       EvSleep (_compute_delay self attempt (Some r))]
  | Failed _ =>
      [EvRequest path qp; EvSleep (_compute_delay self attempt None)]
  end.

Fixpoint retried_attempts `{P : Python} (self : OpenWeatherClient) (path : string)
    (qp : dict) (attempt : Z) (os : list HttpOutcome) : list Event :=
  match os with
  | [] => []
  | o :: os' =>
      retried_attempt self path qp (attempt + 1) o
        ++ retried_attempts self path qp (attempt + 1) os'
  end.

(** The events of the attempt that ends the call. *)
Definition last_attempt (path : string) (qp : dict) (o : HttpOutcome) : list Event :=
  match o with
  | Responded _ => [EvRequest path qp; EvStdout (OutUrl path qp)]
  | Failed _ => [EvRequest path qp]
  end.

(** The requests and the sleeps of a log, in order, without the other
    events. *)
Inductive Traffic := Sent | Slept.

Definition traffic (l : list Event) : list Traffic :=
  omap (λ e, match e with
             | EvRequest _ _ => Some Sent
             | EvSleep _ => Some Slept
             | _ => None
             end) l.

(** A first request, then [n] times a sleep followed by a request. *)
Fixpoint paced (n : nat) : list Traffic :=
  match n with
  | O => [Sent]
  | S n' => Sent :: Slept :: paced n'
  end.

(** ** main.py *)

(** What an endpoint answers: the value it returns, or the [HTTPException]
    it raises. *)
Inductive Reply :=
| Returned (v : value)
| HTTPException (status : Z) (detail : string).


(** The [try] block shared by the two proxy endpoints; [text] is
    [e.response.text]. *)
Definition proxy `{P : Python} (text : Response → string) (call : M value) : M Reply :=
  try_except (v ← call; mret (Returned v))
    (λ e, match e with
          | HTTPStatusError r => mret (HTTPException (status_code r) (text r))
          | TransportError _ =>
              mret (HTTPException 502 ("Upstream error: " +:+ str_exn e))
          | _ => raise e
          end).

(** [GET /api/geocode] *)
Definition geocode `{E : Environment} `{P : Python} (text : Response → string)
    (ow : option OpenWeatherClient) (q : string) (limit : Z) (lang : option string)
    : M Reply :=
  match ow with
  | None => mret (HTTPException 500 "OpenWeather API key not configured.")
  | Some ow => proxy text (geocode_direct ow q limit lang)
  end.

(** [GET /api/weather/current] *)
Definition current_weather_endpoint `{E : Environment} `{P : Python}
    (text : Response → string) (ow : option OpenWeatherClient) (lat lon : value)
    (units : string) (lang : option string) : M Reply :=
  match ow with
  | None => mret (HTTPException 500 "OpenWeather API key not configured.")
  | Some ow => proxy text (current_weather ow lat lon units lang)
  end.

(** ** Shapes of the results of the tools *)



(** [d.get(k)] on a JSON object that may be absent: the entry, or null. *)
Definition get_or_null (o : option value) (k : string) : value :=
  match o with
  | Some (VDict d) => default VNone (assoc k d)
  | _ => VNone
  end.

(** An entry of the provider that is absent or a JSON object. *)
Definition object_or_absent (o : option value) : Prop :=
  match o with
  | None | Some (VDict _) => True
  | _ => False
  end.

(** ** Further data for examples *)

(** The provider gives the answers of a list, one per request, and then
    refuses connections. *)
Definition scripted_env (answers : list HttpOutcome) : Environment := {|
  settings := example_settings;
  http := λ n _ _, default (Failed ConnectError) (answers !! n);
  llm := λ _ _, Raise (ModelError "no answer");
  utcnow := 0;
  utcoffset := λ _, 0;
|}.

(** [Settings()] when no key is configured. *)
Definition unconfigured_settings : Settings := {|
  app_name := "Weather Info Agent API";
  environment := "dev";
  log_level := "INFO";
  google_api_key := "please-give-valid-api-key";
  default_units := "auto";
  default_lang := "en";
  weather_api_key := None;
  air_quality_api_key := None;
  geocoding_api_key := None;
  timezone_api_key := None;
|}.

Definition unconfigured_env : Environment := {|
  settings := unconfigured_settings;
  http := λ _ _ _, Failed ConnectError;
  llm := λ _ _, Raise (ModelError "no answer");
  utcnow := 0;
  utcoffset := λ _, 0;
|}.

(** A 503, a read timeout, then an empty list of candidates. *)
Definition recovering_script : list HttpOutcome :=
  [Responded (response 503 None); Failed ReadTimeout;
   Responded (response 200 (Some (VList [])))].

(** The first element of [raw.get("weather", [{}])], when it is a JSON
    object. *)
Definition first_weather (raw : list (string * value)) : option (list (string * value)) :=
  match assoc "weather" raw with
  | None => Some []
  | Some (VList (VDict d :: _)) => Some d
  | _ => None
  end.

(** An entry whose date satisfies [keep]. *)
Definition kept_by `{E : Environment} (keep : Z → bool) (entry : value) : bool :=
  match time_of entry with
  | Ok t => keep t
  | _ => false
  end.

Definition forecast_entry_keys : list string :=
  ["datetime"; "timestamp"; "temp"; "temp_unit"; "feels_like"; "temp_min";
   "temp_max"; "condition"; "description"; "precipitation_prob"; "wind_speed";
   "humidity"; "clouds"].

(** What the normalisation of a forecast entry keeps of it: its timestamp,
    and its probability of precipitation times 100 (0 when absent): the exact
    product for an integer, the rounded product of floats for a float. *)
Definition normalized_from `{P : Python} (entry n : value) : Prop :=
  keys n = forecast_entry_keys ∧
  is_Some (field "dt" entry) ∧
  field "timestamp" n = field "dt" entry ∧
  match field "pop" entry with
  | None => field "precipitation_prob" n = Some (VInt 0)
  | Some (VInt z) => field "precipitation_prob" n = Some (VInt (z * 100))
  | Some (VFloat q) =>
      field "precipitation_prob" n = Some (VFloat (py_float_mul q 100))
  | Some _ => True
  end.

(** The number of days to the Saturday that opens the weekend, as
    [get_forecast] computes it: 7 on a Saturday from noon on. *)
Definition days_until_saturday (now : Z) : Z :=
  let days := (5 - weekday now) mod 7 in
  if (days =? 0) && (12 <=? hour_of now) then 7 else days.

(** Midnight of the day of a date. *)
Definition midnight (t : Z) : Z := t / usec_per_day * usec_per_day.

(** A forecast entry dated 2024-10-05T01:00:00, a Saturday. *)
Definition tomorrow_entry : value := entry_at (20001 * 86400 + 3600).

(** The model asks for the forecast, which the agent does not register, at
    every query. *)
Definition insisting_env : Environment := {|
  settings := example_settings;
  http := λ _ _ _, Failed ConnectError;
  llm := λ _ _, Ok (asks [call_forecast]);
  utcnow := 0;
  utcoffset := λ _, 0;
|}.

(** The model asks to locate Paris; the provider refuses the key. *)
Definition refused_env : Environment :=
  example_env (response 401 None) [asks [call_locate]] 0.

(** What the proxy endpoints make of the answer that decides a GET. *)
Definition reply_of `{P : Python} (text : Response → string) (o : HttpOutcome)
    : Outcome Reply :=
  match o with
  | Responded r =>
      if is_success (status_code r) then
        match json r with
        | Some v => Ok (Returned v)
        | None => Raise JSONDecodeError
        end
      else Ok (HTTPException (status_code r) (text r))
  | Failed e =>
      Ok (HTTPException 502 ("Upstream error: " +:+ str_exn (TransportError e)))
  end.

(** A call the loop can handle: its tool is not registered, or returns. *)
Definition handled (self : WeatherAgent) (c : ToolCall) : Prop :=
  ∀ tool w, tool_map self !! tc_name c = Some tool →
            ∃ v w', ainvoke tool (tc_args c) w = (Ok v, w').

(** A current-weather object of the provider with a temperature and a
    condition only. *)
Definition sample_weather : list (string * value) :=
  [("main", VDict [("temp", VFloat (59 # 1))]);
   ("weather", VList [VDict [("main", VStr "Clouds")]])].

Definition weather_env : Environment :=
  example_env (response 200 (Some (VDict sample_weather))) [] 0.

(** * Properties *)

(** ** The monad *)

Ltac unfold_monad :=
  unfold mbind, M_bind, mret, M_ret, raise, out_of_fuel, print, emit, deref, alloc,
    setitem, client_get, ask_model, raise_for_status, resp_json in *.

Section client.
Context `{E : Environment} `{P : Python}.
Variable self : OpenWeatherClient.
Variable path : string.

Lemma get_loop_script (qp : loc) (rs : list Response) :
  ∀ (fuel : nat) (attempt : Z) (last : option exn) (w : World) (r : Response),
    let d := default ∅ (heap w !! qp) in
    attempt + Z.of_nat (length rs) < max_retries self →
    (length rs < fuel)%nat →
    (∀ i r', rs !! i = Some r' →
             http (requests w + i)%nat path d = Responded r' ∧
             retried_status (status_code r') = true) →
    http (requests w + length rs)%nat path d = Responded r →
    retried_status (status_code r) = false ∨
      attempt + Z.of_nat (length rs) + 1 = max_retries self →
    _get_loop self path qp fuel attempt last w =
      (finish_outcome r,
       {| heap := heap w;
          requests := S (requests w + length rs);
          queries := queries w;
          log := log w ++ retry_events self path d attempt rs
                       ++ [EvRequest path d; EvStdout (OutUrl path d)] |}).
Proof.
  induction rs as [| r0 rs IH]; intros fuel attempt last w r d Hlt Hfuel Hrs Hr Hstop.
  - simpl in *. destruct fuel as [| fuel]; [lia |].
    rewrite Nat.add_0_r in *.
    simpl. assert ((attempt <? max_retries self) = true) as -> by lia.
    unfold_monad. simpl. fold d. rewrite Hr. simpl.
    fold d.
    assert (retried_status (status_code r) && (attempt + 1 <? max_retries self) = false)
      as Hno.
    { destruct Hstop as [-> | Heq]; [done |].
      apply andb_false_iff. right. lia. }
    unfold finish_outcome.
    destruct (retried_status (status_code r)) eqn:Hret.
    + simpl in Hno. rewrite Hno.
      destruct (is_success (status_code r)); simpl;
        [destruct (json r) |]; unfold_monad; simpl; rewrite <- ?app_assoc; reflexivity.
    + destruct (is_success (status_code r)); simpl;
        [destruct (json r) |]; unfold_monad; simpl; rewrite <- ?app_assoc; reflexivity.
  - simpl in Hlt, Hfuel. destruct fuel as [| fuel]; [lia |].
    destruct (Hrs 0%nat r0 eq_refl) as [H0 Hret0].
    rewrite Nat.add_0_r in H0.
    simpl. assert ((attempt <? max_retries self) = true) as -> by lia.
    unfold_monad. simpl. fold d. rewrite H0. simpl. rewrite Hret0.
    assert ((attempt + 1 <? max_retries self) = true) as -> by lia.
    simpl.
    erewrite (IH fuel (attempt + 1) last _ r); simpl.
    + fold d. f_equal. f_equal.
      * lia.
      * rewrite <- !app_assoc. reflexivity.
    + lia.
    + lia.
    + intros i r' Hi. specialize (Hrs (S i) r' Hi).
      by rewrite <- Nat.add_succ_r.
    + simpl in Hr. by rewrite <- Nat.add_succ_r.
    + destruct Hstop as [? | Heq]; [by left | right]. simpl in Heq. lia.
Qed.

(** The loop leaves the heap alone and sends every request with the
    dictionary [qp] points to. *)
Lemma get_loop_frame (qp : loc) (fuel : nat) :
  ∀ (attempt : Z) (last : option exn) (w : World),
    let w' := (_get_loop self path qp fuel attempt last w).2 in
    heap w' = heap w ∧ queries w' = queries w ∧
    ∃ new, log w' = log w ++ new ∧
           Forall (λ pd, pd = (path, default ∅ (heap w !! qp))) (requests_sent new) ∧
           Forall (λ e, is_model_event e = false) new.
Proof.
  induction fuel as [| fuel IH]; intros attempt last w; simpl.
  - destruct (attempt <? max_retries self); [| destruct last]; simpl;
      (split; [done | split; [done |]]); exists []; by rewrite app_nil_r.
  - destruct (attempt <? max_retries self); [| destruct last]; simpl;
      try ((split; [done | split; [done |]]); exists []; by rewrite app_nil_r).
    unfold_monad. simpl.
    set (d := default ∅ (heap w !! qp)).
    destruct (http (requests w) path d) as [resp | e]; simpl.
    + destruct (retried_status (status_code resp)); simpl.
      * destruct (attempt + 1 <? max_retries self); simpl.
        -- match goal with |- context [_get_loop _ _ _ _ ?a ?l ?w0] =>
             destruct (IH a l w0) as (Hh & Hq & new & Hl & Hreq & Hmod) end.
           simpl in *. split; [done | split; [done |]].
           eexists. split; [rewrite Hl, <- !app_assoc; reflexivity |].
           split.
           ++ unfold requests_sent. simpl. constructor; [done | exact Hreq].
           ++ repeat (constructor; [done |]). exact Hmod.
        -- destruct (is_success (status_code resp)); simpl;
             [destruct (json resp) |]; simpl;
             (split; [done | split; [done |]]);
             (eexists; split; [rewrite <- !app_assoc; reflexivity |]);
             (split; [unfold requests_sent; simpl; by repeat constructor
                     | by repeat constructor]).
      * destruct (is_success (status_code resp)); simpl;
          [destruct (json resp) |]; simpl;
          (split; [done | split; [done |]]);
          (eexists; split; [rewrite <- !app_assoc; reflexivity |]);
          (split; [unfold requests_sent; simpl; by repeat constructor
                  | by repeat constructor]).
    + destruct (retried_error e); simpl.
      * destruct (attempt + 1 <? max_retries self); simpl.
        -- match goal with |- context [_get_loop _ _ _ _ ?a ?l ?w0] =>
             destruct (IH a l w0) as (Hh & Hq & new & Hl & Hreq & Hmod) end.
           simpl in *. split; [done | split; [done |]].
           eexists. split; [rewrite Hl, <- !app_assoc; reflexivity |].
           split.
           ++ unfold requests_sent. simpl. constructor; [done | exact Hreq].
           ++ repeat (constructor; [done |]). exact Hmod.
        -- (split; [done | split; [done |]]).
           eexists; split; [reflexivity |].
           split; [unfold requests_sent; simpl; by repeat constructor
                  | by repeat constructor].
      * (split; [done | split; [done |]]).
        eexists; split; [reflexivity |].
        split; [unfold requests_sent; simpl; by repeat constructor
               | by repeat constructor].
Qed.

(** What [_get] does before its loop: the parameters are copied into a
    new dictionary, which receives the key. *)
Lemma get_prepare (params : option loc) (w : World) :
  ∃ (qp : loc) (h : gmap loc dict),
    _get self path params w =
      _get_loop self path qp (Z.to_nat (max_retries self)) 0 None
        {| heap := h; requests := requests w; queries := queries w; log := log w |} ∧
    h !! qp = Some (with_appid self (params_dict params w)) ∧
    heap w !! qp = None ∧
    ∀ l, is_Some (heap w !! l) → h !! l = heap w !! l.
Proof.
  unfold _get, params_or_empty.
  assert (Hfresh : ∀ m : gmap loc dict, m !! fresh (dom m) = None).
  { intros m. apply not_elem_of_dom, is_fresh. }
  assert (Hkeep : ∀ (m : gmap loc dict) x l,
             is_Some (m !! l) → <[fresh (dom m) := x]> m !! l = m !! l).
  { intros m x l [y Hy]. rewrite lookup_insert_ne; [done |].
    intros <-. by rewrite Hfresh in Hy. }
  destruct params as [p |]; simpl.
  - unfold_monad. simpl.
    destruct (bool_decide (default ∅ (heap w !! p) = ∅)) eqn:Hd; simpl.
    + apply bool_decide_eq_true in Hd. rewrite Hd.
      set (l1 := fresh (dom (heap w))).
      set (h1 := <[l1 := ∅]> (heap w)).
      assert (Hl1 : h1 !! l1 = Some ∅) by apply lookup_insert_eq.
      exists (fresh (dom h1)), (<[fresh (dom h1) := with_appid self ∅]> h1).
      rewrite Hl1. simpl.
      rewrite alter_insert_eq. split; [done |].
      rewrite lookup_insert_eq. split; [done |]. split.
      * destruct (heap w !! fresh (dom h1)) eqn:Hq; [| done].
        assert (is_Some (heap w !! fresh (dom h1))) as Hs by eauto.
        pose proof (Hkeep (heap w) ∅ _ Hs) as Hk. fold l1 h1 in Hk.
        rewrite Hfresh in Hk. rewrite Hq in Hk. done.
      * intros l Hl. rewrite Hkeep; [by apply Hkeep |].
        unfold h1, l1. by rewrite Hkeep.
    + exists (fresh (dom (heap w))),
             (<[fresh (dom (heap w)) := with_appid self (default ∅ (heap w !! p))]> (heap w)).
      rewrite alter_insert_eq. split; [done |].
      rewrite lookup_insert_eq. split; [done |]. split; [apply Hfresh |].
      intros l Hl. by apply Hkeep.
  - unfold_monad. simpl.
    set (l1 := fresh (dom (heap w))).
    set (h1 := <[l1 := ∅]> (heap w)).
    assert (Hl1 : h1 !! l1 = Some ∅) by apply lookup_insert_eq.
    exists (fresh (dom h1)), (<[fresh (dom h1) := with_appid self ∅]> h1).
    rewrite Hl1. simpl.
    rewrite alter_insert_eq. split; [done |].
    rewrite lookup_insert_eq. split; [done |]. split.
    * destruct (heap w !! fresh (dom h1)) eqn:Hq; [| done].
      assert (is_Some (heap w !! fresh (dom h1))) as Hs by eauto.
      pose proof (Hkeep (heap w) ∅ _ Hs) as Hk. fold l1 h1 in Hk.
      rewrite Hfresh in Hk. rewrite Hq in Hk. done.
    * intros l Hl. rewrite Hkeep; [by apply Hkeep |].
      unfold h1, l1. by rewrite Hkeep.
Qed.

Lemma get_loop_terminates (qp : loc) (fuel : nat) :
  ∀ (attempt : Z) (last : option exn) (w : World),
    max_retries self - attempt ≤ Z.of_nat fuel →
    (_get_loop self path qp fuel attempt last w).1 ≠ OutOfFuel.
Proof.
  induction fuel as [| fuel IH]; intros attempt last w Hfuel; simpl.
  - assert ((attempt <? max_retries self) = false) as -> by lia.
    by destruct last.
  - destruct (attempt <? max_retries self); [| by destruct last].
    unfold_monad. simpl.
    destruct (http _ _ _) as [resp | e]; simpl.
    + destruct (retried_status (status_code resp)); simpl;
        [destruct (attempt + 1 <? max_retries self); simpl;
           [apply IH; lia |] |];
        (destruct (is_success (status_code resp)); simpl;
           [by destruct (json resp) | done]).
    + destruct (retried_error e); simpl; [| done].
      destruct (attempt + 1 <? max_retries self); simpl; [apply IH; lia | done].
Qed.

Lemma get_terminates (params : option loc) : terminates (_get self path params).
Proof.
  intros w. destruct (get_prepare params w) as (qp & h & -> & _).
  apply get_loop_terminates. lia.
Qed.
End client.

Lemma retried_status_spec (s : Z) :
  retried_status s = true ↔ s = 429 ∨ 500 ≤ s < 600.
Proof. unfold retried_status. lia. Qed.

Lemma is_success_spec (s : Z) : is_success s = true ↔ 200 ≤ s ≤ 299.
Proof. unfold is_success. lia. Qed.

Lemma get_script `{E : Environment} `{P : Python} (self : OpenWeatherClient)
    (path : string) (params : option loc) (w : World) (rs : list Response)
    (r : Response) :
  let d := with_appid self (params_dict params w) in
  Z.of_nat (length rs) < max_retries self →
  (∀ i r', rs !! i = Some r' →
           http (requests w + i)%nat path d = Responded r' ∧
           retried_status (status_code r') = true) →
  http (requests w + length rs)%nat path d = Responded r →
  retried_status (status_code r) = false ∨
    Z.of_nat (length rs) + 1 = max_retries self →
  ∃ w', _get self path params w = (finish_outcome r, w') ∧
        requests w' = (requests w + length rs + 1)%nat ∧
        queries w' = queries w ∧
        log w' = log w ++ retry_events self path d 0 rs
                       ++ [EvRequest path d; EvStdout (OutUrl path d)].
Proof.
  intros d Hlen Hrs Hr Hstop.
  destruct (get_prepare self path params w) as (qp & h & -> & Hqp & _ & _).
  set (w0 := {| heap := h; requests := requests w; queries := queries w; log := log w |}).
  assert (Hd : default ∅ (h !! qp) = d) by (by rewrite Hqp).
  rewrite (get_loop_script self path qp rs _ 0 None w0 r); simpl; rewrite ?Hd;
    [| lia | lia | done | done | destruct Hstop; [by left | right; lia]].
  eexists. split; [reflexivity |]. simpl. split; [lia | done].
Qed.

(** Claim C6.  A GET of the client whose first [length rs] answers have status
    429 or 5xx, with attempts remaining after each, sleeps for the computed
    delay after each of them and tries again.  The answer [r] that follows,
    when it is not a 2xx and either is not a 429 or 5xx (a caller error:
    raised at once, with [rs = []] on the first attempt) or is the answer to
    the last attempt allowed ([length rs + 1 = max_retries]: the budget is
    exhausted), makes the call raise the HTTP status error built from [r];
    exactly [length rs + 1] requests have been sent, no further attempt is
    made.  With [max_retries = 3], three 503 answers give three attempts. *)
Theorem get_retry_policy `{E : Environment} `{P : Python} (self : OpenWeatherClient)
    (path : string) (params : option loc) (w : World) (rs : list Response)
    (r : Response) :
  let d := with_appid self (params_dict params w) in
  Z.of_nat (length rs) < max_retries self →
  (∀ i r', rs !! i = Some r' →
           http (requests w + i)%nat path d = Responded r' ∧
           (status_code r' = 429 ∨ 500 ≤ status_code r' < 600)) →
  http (requests w + length rs)%nat path d = Responded r →
  ¬ 200 ≤ status_code r ≤ 299 →
  (status_code r ≠ 429 ∧ ¬ 500 ≤ status_code r < 600) ∨
    Z.of_nat (length rs) + 1 = max_retries self →
  ∃ w', _get self path params w = (Raise (HTTPStatusError r), w') ∧
        requests w' = (requests w + length rs + 1)%nat ∧
        log w' = log w ++ retry_events self path d 0 rs
                       ++ [EvRequest path d; EvStdout (OutUrl path d)].
Proof.
  intros d Hlen Hrs Hr Hfail Hstop.
  destruct (get_script self path params w rs r) as (w' & Hrun & Hreq & _ & Hlog);
    [done | | done | |].
  - intros i r' Hi. destruct (Hrs i r' Hi) as [? ?].
    split; [done |]. by apply retried_status_spec.
  - destruct Hstop as [[? ?] | ?]; [left | by right].
    apply not_true_is_false. rewrite retried_status_spec. lia.
  - exists w'. split; [| done]. rewrite Hrun. unfold finish_outcome.
    assert (is_success (status_code r) = false) as ->; [| reflexivity].
    apply not_true_is_false. by rewrite is_success_spec.
Qed.

(** Claim C10.  A GET of the client leaves the dictionary of parameters of its
    caller, and every dictionary that existed before the call, as it was: the
    requests are sent with a new dictionary holding the parameters and the
    key of the API. *)
Theorem get_leaves_params_unchanged `{E : Environment} `{P : Python}
    (self : OpenWeatherClient) (path : string) (p : loc) (d : dict) (w : World) :
  heap w !! p = Some d →
  let w' := (_get self path (Some p) w).2 in
  heap w' !! p = Some d ∧
  (∀ l, is_Some (heap w !! l) → heap w' !! l = heap w !! l) ∧
  ∃ new, log w' = log w ++ new ∧
         Forall (λ pd, pd = (path, with_appid self d)) (requests_sent new).
Proof.
  intros Hp w'. subst w'.
  destruct (get_prepare self path (Some p) w) as (qp & h & -> & Hqp & Hnew & Hkeep).
  match goal with |- context [_get_loop _ _ _ ?f ?a ?l ?w0] =>
    destruct (get_loop_frame self path qp f a l w0) as (Hh & _ & new & Hl & Hreq & _) end.
  simpl in *. rewrite Hh. split; [| split].
  - rewrite Hkeep by eauto. done.
  - exact Hkeep.
  - exists new. split; [done |]. rewrite Hqp, Hp in Hreq. exact Hreq.
Qed.

Lemma get_retry_policy_three_503 :
  ∃ w', _get (E:=example_env (response 503 None) [] 0) (P:=ExamplePython)
             example_client "/data/2.5/weather" None empty_world
          = (Raise (HTTPStatusError (response 503 None)), w') ∧
        requests w' = 3%nat ∧
        sleeps (log w') = [(1 # 2) * 2 ^ (1 - 1); (1 # 2) * 2 ^ (2 - 1)]%Q.
Proof.
  destruct (get_retry_policy (E:=example_env (response 503 None) [] 0)
              (P:=ExamplePython) example_client "/data/2.5/weather" None empty_world
              [response 503 None; response 503 None] (response 503 None))
    as (w' & Hrun & Hreq & Hlog).
  - simpl. lia.
  - intros i r' Hi. destruct i as [| [| i]]; simpl in Hi; inversion Hi; subst;
      simpl; split; (reflexivity || lia).
  - reflexivity.
  - simpl. lia.
  - right. reflexivity.
  - exists w'. split; [exact Hrun |]. split; [exact Hreq |].
    rewrite Hlog. reflexivity.
Defined.

Lemma get_leaves_params_unchanged_example :
  let w := {| heap := {[ 1%positive := {[ "q" := VStr "Paris" ]} ]};
              requests := 0; queries := 0; log := [] |} in
  heap w !! 1%positive = Some ({[ "q" := VStr "Paris" ]} : dict) ∧
  heap (_get (E:=example_env (response 200 (Some (VList []))) [] 0)
             (P:=ExamplePython) example_client "/geo/1.0/direct" (Some 1%positive) w).2
    !! 1%positive = Some ({[ "q" := VStr "Paris" ]} : dict).
Proof.
  intros w. split; [reflexivity |].
  destruct (get_leaves_params_unchanged
              (E:=example_env (response 200 (Some (VList []))) [] 0)
              (P:=ExamplePython) example_client "/geo/1.0/direct" 1%positive
              {[ "q" := VStr "Paris" ]} w) as [Hp _]; [reflexivity | exact Hp].
Defined.

(** ** The delay before a retry *)





(** ** Computations that cannot run out of fuel *)

Lemma terminates_ret {A} (a : A) : terminates (mret a).
Proof. by intros w. Qed.

Lemma terminates_raise {A} (e : exn) : terminates (raise e : M A).
Proof. by intros w. Qed.

Lemma terminates_bind {A B} (m : M A) (f : A → M B) :
  terminates m → (∀ a, terminates (f a)) → terminates (m ≫= f).
Proof.
  intros Hm Hf w. unfold mbind, M_bind. specialize (Hm w).
  destruct (m w) as [[a | e |] w']; simpl in *; [apply Hf | done | done].
Qed.

Lemma terminates_try_except {A} (body : M A) (handler : exn → M A) :
  terminates body → (∀ e, terminates (handler e)) →
  terminates (try_except body handler).
Proof.
  intros Hb Hh w. unfold try_except. specialize (Hb w).
  destruct (body w) as [[a | e |] w']; simpl in *; [done | apply Hh | done].
Qed.

Lemma terminates_try_finally {A} (body : M A) (final : M unit) :
  terminates body → terminates final → terminates (try_finally body final).
Proof.
  intros Hb Hf w. unfold try_finally. specialize (Hb w).
  destruct (body w) as [[a | e |] w']; simpl in *; [| | done];
    specialize (Hf w'); by destruct (final w') as [[[] | e' |] w''].
Qed.

Lemma terminates_emit (e : Event) : terminates (emit e).
Proof. by intros w. Qed.

Lemma terminates_alloc (d : dict) : terminates (alloc d).
Proof. by intros w. Qed.

Lemma terminates_setitem l k v : terminates (setitem l k v).
Proof. by intros w. Qed.

Lemma terminates_dict_get v k dflt : terminates (dict_get v k dflt).
Proof. intros w. by destruct v. Qed.

Lemma terminates_getitem v k : terminates (getitem v k).
Proof. intros w. destruct v; try done. simpl. by destruct (assoc k d). Qed.

Lemma terminates_subscript0 v : terminates (subscript0 v).
Proof. intros w. destruct v as [| | | | [] | [] |]; done. Qed.

Lemma terminates_iadd_str v s : terminates (iadd_str v s).
Proof. intros w. by destruct v. Qed.

Lemma terminates_times100 `{P : Python} v : terminates (times100 v).
Proof. intros w. by destruct v. Qed.

Lemma terminates_set_lang p lang : terminates (set_lang p lang).
Proof. intros w. destruct lang as [l |]; [| done]. simpl. by destruct (l =? "")%string. Qed.

Lemma terminates_new_client `{E : Environment} : terminates new_client.
Proof.
  intros w. unfold new_client, OpenWeatherClient__init__.
  destruct (or_string _ _) as [k |]; [| done]. by destruct (k =? "")%string.
Qed.

Lemma terminates_with_client `{E : Environment} {A} (body : OpenWeatherClient → M A) :
  (∀ c, terminates (body c)) → terminates (with_client body).
Proof.
  intros Hb. apply terminates_bind; [apply terminates_new_client |].
  intros c. apply terminates_try_finally; [apply Hb | apply terminates_emit].
Qed.

Create HintDb terminates.

#[local] Hint Resolve terminates_ret terminates_raise terminates_emit terminates_alloc
  terminates_setitem terminates_dict_get terminates_getitem terminates_subscript0
  terminates_iadd_str terminates_times100 terminates_set_lang terminates_new_client
  get_terminates : terminates.

Ltac terminates_step :=
  first [ solve [eauto with terminates]
        | match goal with |- terminates (if ?b then _ else _) => destruct b end
        | apply terminates_with_client; intros ?
        | apply terminates_try_except; [| intros ?]
        | apply terminates_bind; [| intros ?] ].

Section tools.
Context `{E : Environment} `{P : Python}.

Lemma terminates_geocode_direct c q limit lang :
  terminates (geocode_direct c q limit lang).
Proof. unfold geocode_direct. repeat terminates_step. Qed.

Lemma terminates_current_weather c lat lon units lang :
  terminates (current_weather c lat lon units lang).
Proof. unfold current_weather. repeat terminates_step. Qed.

Lemma terminates_forecast_5day c lat lon units lang :
  terminates (forecast_5day c lat lon units lang).
Proof. unfold forecast_5day. repeat terminates_step. Qed.

Lemma terminates_append_part place key n : terminates (append_part place key n).
Proof. unfold append_part. repeat terminates_step. Qed.

#[local] Hint Resolve terminates_geocode_direct terminates_current_weather
  terminates_forecast_5day terminates_append_part : terminates.

Lemma terminates_city_to_coords city : terminates (city_to_coords city).
Proof. unfold city_to_coords, print. repeat terminates_step. Qed.

Lemma terminates_current_weather_body lat lon units :
  terminates (current_weather_body lat lon units).
Proof. unfold current_weather_body. repeat terminates_step. Qed.

(** A [try] block with a handler that returns always returns. *)
Lemma try_except_returns {A} (body : M A) (handler : exn → A) (w : World) :
  terminates body →
  ∃ v w', try_except body (λ e, mret (handler e)) w = (Ok v, w').
Proof.
  intros Ht. unfold try_except. specialize (Ht w).
  destruct (body w) as [[v | e |] w']; simpl in *; [by eauto | by eauto | done].
Qed.

(** [get_current_weather] returns a result whatever the provider does. *)
Lemma get_current_weather_returns lat lon units (w : World) :
  ∃ v w', get_current_weather lat lon units w = (Ok v, w').
Proof.
  unfold get_current_weather, print. unfold mbind at 1. unfold M_bind. simpl.
  apply try_except_returns, terminates_current_weather_body.
Qed.
End tools.

(** ** Geocoding *)

Lemma string_app_assoc (a b c : string) : (a +:+ b) +:+ c = a +:+ (b +:+ c).
Proof.
  induction a as [| x a IH]; [done |].
  change (String x ((a +:+ b) +:+ c) = String x (a +:+ (b +:+ c))). by rewrite IH.
Qed.

Lemma join_snoc (sep : string) (l : list string) (x : string) :
  l ≠ [] → join sep (l ++ [x]) = join sep l +:+ sep +:+ x.
Proof.
  induction l as [| a [| b l] IH]; intros Hne; [done | done |].
  change (join sep ((a :: b :: l) ++ [x])) with (a +:+ sep +:+ join sep ((b :: l) ++ [x])).
  rewrite IH by done.
  change (join sep (a :: b :: l)) with (a +:+ sep +:+ join sep (b :: l)).
  by rewrite !string_app_assoc.
Qed.

Section locate.
Context `{E : Environment} `{P : Python}.

Lemma new_client_configured (key : string) (w : World) :
  weather_api_key settings = Some key → key ≠ "" →
  new_client w =
    (Ok {| api_key := key; base_url := "https://api.openweathermap.org";
           max_retries := 3; backoff_factor := 1 # 2 |}, w).
Proof.
  intros Hkey Hne. unfold new_client, OpenWeatherClient__init__. rewrite Hkey. simpl.
  destruct (String.eqb_spec key "") as [-> | _]; [done | reflexivity].
Qed.

Lemma geocode_direct_once (c : OpenWeatherClient) (city lang : string)
    (w : World) (r : Response) :
  1 ≤ max_retries c →
  let d := geocode_query (api_key c) city lang in
  http (requests w) "/geo/1.0/direct" d = Responded r →
  retried_status (status_code r) = false →
  ∃ w', geocode_direct c city 1 (Some lang) w = (finish_outcome r, w') ∧
        requests w' = S (requests w) ∧ queries w' = queries w ∧
        log w' = log w ++ [EvRequest "/geo/1.0/direct" d;
                           EvStdout (OutUrl "/geo/1.0/direct" d)].
Proof.
  intros Hmax d Hr Hret. unfold geocode_direct.
  unfold mbind at 1. unfold M_bind, alloc. simpl.
  set (p := fresh (dom (heap w))).
  set (base := <["limit" := VInt 1]> {["q" := VStr city]} : dict).
  unfold mbind at 1. unfold M_bind, set_lang.
  match goal with |- context [(if (lang =? "")%string then _ else _) ?w0] =>
    assert (∃ w1, (if (lang =? "")%string then mret tt
                   else setitem p "lang" (VStr lang)) w0 = (Ok tt, w1) ∧
                  requests w1 = requests w ∧ queries w1 = queries w ∧
                  log w1 = log w ∧
                  with_appid c (params_dict (Some p) w1) = d) as (w1 & -> & Hq1 & Hq2 & Hl1 & Hd)
  end.
  { unfold d, geocode_query. fold base.
    destruct (lang =? "")%string; eexists; (split; [reflexivity |]); simpl;
      (split; [done |]); (split; [done |]); (split; [done |]).
    - by rewrite lookup_insert_eq.
    - by rewrite alter_insert_eq, lookup_insert_eq. }
  destruct (get_script c "/geo/1.0/direct" (Some p) w1 [] r)
    as (w' & Hrun & Hreq & Hqu & Hlog).
  - simpl. lia.
  - intros i r' Hi. done.
  - rewrite Hd, Hq1, Nat.add_0_r. exact Hr.
  - by left.
  - exists w'. rewrite Hrun. split; [done |]. simpl in *.
    rewrite Hd in Hlog. rewrite Hreq, Hqu, Hlog, Hq1, Hq2, Hl1.
    split; [lia | done].
Qed.

Lemma append_part_textual (fields : list (string * value)) (key : string)
    (parts : list string) (w : World) :
  parts ≠ [] → textual (assoc key fields) →
  append_part (VDict fields) key (VStr (join ", " parts)) w =
    (Ok (VStr (join ", " (parts ++ present (assoc key fields)))), w).
Proof.
  intros Hne Ht. unfold append_part, dict_get, getitem. unfold_monad. simpl.
  destruct (assoc key fields) as [[| | | | s | |] |] eqn:Hk; simpl in *;
    try done; try (by rewrite app_nil_r).
  destruct (String.eqb_spec s "") as [-> | Hs]; simpl.
  - by rewrite app_nil_r.
  - by rewrite join_snoc.
Qed.

(** Claim C8.  When the geocoding lookup answers with a list of candidates,
    [city_to_coords] yields the error variant (a non-empty error, and null
    for [lat], [lon] and [normalized_name]) if the list is empty, and
    otherwise the [lat] and [lon] of the first candidate with the name built by
    joining the name of the place, its state and its country, those present,
    with a comma and a space. *)
Theorem city_to_coords_locates (city key : string) (w : World) (r : Response)
    (candidates : list value) :
  weather_api_key settings = Some key → key ≠ "" →
  http (requests w) "/geo/1.0/direct"
       (geocode_query key city (default_lang settings)) = Responded r →
  200 ≤ status_code r ≤ 299 →
  json r = Some (VList candidates) →
  ∃ w',
    (candidates = [] →
     ∃ msg, msg ≠ "" ∧
       city_to_coords city w =
         (Ok (VDict [("error", VStr msg); ("lat", VNone); ("lon", VNone);
                     ("normalized_name", VNone)]), w')) ∧
    (∀ fields rest name lat lon,
       candidates = VDict fields :: rest →
       assoc "name" fields = Some (VStr name) →
       textual (assoc "state" fields) → textual (assoc "country" fields) →
       assoc "lat" fields = Some lat → assoc "lon" fields = Some lon →
       city_to_coords city w =
         (Ok (VDict [("lat", lat); ("lon", lon);
                     ("normalized_name", VStr (joined_name fields name))]), w')).
Proof.
  intros Hkey Hne Hr Hst Hjson.
  set (c := {| api_key := key; base_url := "https://api.openweathermap.org";
               max_retries := 3; backoff_factor := 1 # 2 |}).
  set (w0 := {| heap := heap w; requests := requests w; queries := queries w;
                log := log w ++ [EvStdout (OutCity city)] |}).
  destruct (geocode_direct_once c city (default_lang settings) w0 r)
    as (w1 & Hgeo & _); [done | done | unfold retried_status; lia |].
  assert (Hfin : finish_outcome r = Ok (VList candidates)).
  { unfold finish_outcome. rewrite Hjson.
    assert (is_success (status_code r) = true) as ->; [| done].
    unfold is_success. lia. }
  rewrite Hfin in Hgeo.
  assert (Hrun : ∀ k : value → M value,
    (print (OutCity city);;
     with_client (λ client,
       results ← geocode_direct client city 1 (Some (default_lang settings));
       k results)) w
    = try_finally (k (VList candidates)) (aclose c) w1 ∧ True).
  { intros k. split; [| done]. unfold print, with_client.
    unfold mbind at 1. unfold M_bind at 1. simpl. fold w0.
    unfold mbind at 1. unfold M_bind at 1.
    rewrite (new_client_configured key w0 Hkey Hne). fold c.
    unfold try_finally. unfold mbind at 1. unfold M_bind at 1.
    by rewrite Hgeo. }
  eexists. split.
  - intros ->. eexists. split; cycle 1.
    + unfold city_to_coords. rewrite (proj1 (Hrun _)). reflexivity.
    + done.
  - intros fields rest name lat lon -> Hname Hstate Hcountry Hlat Hlon.
    unfold city_to_coords. rewrite (proj1 (Hrun _)).
    unfold try_finally. simpl.
    unfold mbind at 1. unfold M_bind at 1. simpl.
    unfold mbind at 1. unfold M_bind at 1. simpl. rewrite Hname. simpl.
    pose proof (append_part_textual fields "state" [name] w1 ltac:(done) Hstate) as Hs.
    change (join ", " [name]) with name in Hs.
    unfold mbind at 1. unfold M_bind at 1. rewrite Hs.
    unfold mbind at 1. unfold M_bind at 1.
    rewrite (append_part_textual fields "country") by done.
    unfold_monad. simpl. rewrite Hlat, Hlon. simpl.
    unfold joined_name. rewrite <- ?app_assoc. reflexivity.
Qed.
End locate.

Lemma city_to_coords_locates_paris :
  (city_to_coords (E:=geocoding_env [VDict paris_fr]) (P:=ExamplePython)
     "Paris" empty_world).1 =
    Ok (VDict [("lat", VFloat (4885 # 100)); ("lon", VFloat (235 # 100));
               ("normalized_name", VStr "Paris, FR")]) ∧
  (∃ msg, msg ≠ "" ∧
     (city_to_coords (E:=geocoding_env []) (P:=ExamplePython)
        "Unknown Place" empty_world).1 =
       Ok (VDict [("error", VStr msg); ("lat", VNone); ("lon", VNone);
                  ("normalized_name", VNone)])).
Proof.
  split.
  - destruct (city_to_coords_locates (E:=geocoding_env [VDict paris_fr])
                (P:=ExamplePython) "Paris" "secret" empty_world
                (response 200 (Some (VList [VDict paris_fr]))) [VDict paris_fr])
      as (w' & _ & Hfound);
      [reflexivity | done | reflexivity | simpl; lia | reflexivity |].
    rewrite (Hfound paris_fr [] "Paris" (VFloat (4885 # 100)) (VFloat (235 # 100))
               eq_refl eq_refl I I eq_refl eq_refl).
    reflexivity.
  - destruct (city_to_coords_locates (E:=geocoding_env [])
                (P:=ExamplePython) "Unknown Place" "secret" empty_world
                (response 200 (Some (VList []))) [])
      as (w' & Hnone & _);
      [reflexivity | done | reflexivity | simpl; lia | reflexivity |].
    destruct (Hnone eq_refl) as (msg & Hmsg & Hrun).
    exists msg. split; [exact Hmsg |]. by rewrite Hrun.
Defined.

Example city_to_coords_paris_texas :
  (city_to_coords (E:=geocoding_env [VDict paris_texas]) (P:=ExamplePython)
     "Paris" empty_world).1 =
    Ok (VDict [("lat", VFloat (3366 # 100)); ("lon", VFloat (-9555 # 100));
               ("normalized_name", VStr "Paris, Texas, US")]).
Proof. vm_compute. reflexivity. Qed.

(** ** The forecast *)

#[local] Hint Resolve terminates_geocode_direct terminates_current_weather
  terminates_forecast_5day terminates_append_part : terminates.

Section forecast.
Context `{E : Environment} `{P : Python}.

Lemma terminates_dt_add t delta : terminates (dt_add t delta).
Proof. intros w. unfold dt_add. by destruct (in_range _). Qed.

Lemma terminates_local_usec s u : terminates (local_usec s u).
Proof. intros w. unfold local_usec. by destruct (in_range _). Qed.

Lemma terminates_fromtimestamp v : terminates (fromtimestamp v).
Proof. destruct v; simpl; auto using terminates_local_usec, terminates_raise. Qed.

Lemma terminates_iterate v : terminates (iterate v).
Proof. intros w. by destruct v. Qed.

#[local] Hint Resolve terminates_dt_add terminates_fromtimestamp terminates_iterate
  : terminates.

Lemma terminates_entry_time entry : terminates (entry_time entry).
Proof. unfold entry_time. repeat terminates_step. Qed.

#[local] Hint Resolve terminates_entry_time : terminates.

Lemma terminates_select_items keep items : terminates (select_items keep items).
Proof. induction items as [| entry rest IH]; simpl; repeat terminates_step. Qed.

#[local] Hint Resolve terminates_select_items : terminates.

Lemma terminates_select keep v : terminates (select keep v).
Proof. unfold select. repeat terminates_step. Qed.

#[local] Hint Resolve terminates_select : terminates.

Lemma terminates_filter_entries timeframe now v :
  terminates (filter_entries timeframe now v).
Proof. unfold filter_entries. repeat terminates_step. Qed.

Lemma terminates_normalize_entry unit entry : terminates (normalize_entry unit entry).
Proof. unfold normalize_entry. repeat terminates_step. Qed.

#[local] Hint Resolve terminates_filter_entries terminates_normalize_entry : terminates.

Lemma terminates_normalize_all unit entries : terminates (normalize_all unit entries).
Proof. induction entries as [| entry rest IH]; simpl; repeat terminates_step. Qed.

#[local] Hint Resolve terminates_normalize_all terminates_forecast_5day : terminates.

Lemma terminates_forecast_body lat lon timeframe units :
  terminates (forecast_body lat lon timeframe units).
Proof. unfold forecast_body. repeat terminates_step. Qed.

(** [get_forecast] returns a result whatever the provider does. *)
Lemma get_forecast_returns lat lon timeframe units (w : World) :
  ∃ v w', get_forecast lat lon timeframe units w = (Ok v, w').
Proof. apply try_except_returns, terminates_forecast_body. Qed.

(** The date of an entry is computed without effect. *)
Lemma entry_time_pure (entry : value) (w : World) :
  entry_time entry w = (time_of entry, w).
Proof.
  unfold time_of, entry_time, getitem, fromtimestamp, local_usec. unfold_monad.
  destruct entry as [| | | | | | d]; simpl; try done.
  destruct (assoc "dt" d) as [[| b | z | q | | |] |]; simpl; try done;
    by destruct (in_range _).
Qed.

Lemma select_items_filter (keep : Z → bool) (items : list value) (w : World) :
  (∀ entry, entry ∈ items → ∃ t, time_of entry = Ok t) →
  select_items keep items w =
    (Ok (List.filter (λ entry, match time_of entry with
                               | Ok t => keep t
                               | _ => false
                               end) items), w).
Proof.
  induction items as [| entry rest IH]; intros Hok; simpl; [done |].
  unfold mbind at 1. unfold M_bind at 1. rewrite entry_time_pure.
  destruct (Hok entry) as [t Ht]; [by left |]. rewrite Ht.
  unfold mbind at 1. unfold M_bind at 1. rewrite IH; [| intros e He; apply Hok; by right].
  unfold_monad. by destruct (keep t).
Qed.

(** What the last branch of the filter computes.  For the time frame
    "next_3_days", and any value that is not one of the three other time
    frames, the filter keeps exactly the entries whose date is at most 72
    hours after now.  The branch tests no lower bound, where its three
    siblings test a start and an end: an entry dated before now is kept. *)
Theorem next_3_days_filter (timeframe : string) (now : Z) (items : list value)
    (w : World) :
  timeframe ≠ "tonight" → timeframe ≠ "tomorrow" → timeframe ≠ "weekend" →
  datetime_min ≤ now + 72 * usec_per_hour ≤ datetime_max →
  (∀ entry, entry ∈ items → ∃ t, time_of entry = Ok t) →
  let kept := List.filter (not_after (now + 72 * usec_per_hour)) items in
  filter_entries timeframe now (VList items) w = (Ok kept, w) ∧
  ∀ entry, entry ∈ kept ↔
           entry ∈ items ∧ ∃ t, time_of entry = Ok t ∧ t ≤ now + 72 * usec_per_hour.
Proof.
  intros H1 H2 H3 Hrange Hok kept. split.
  - unfold filter_entries.
    destruct (String.eqb_spec timeframe "tonight"); [done |].
    destruct (String.eqb_spec timeframe "tomorrow"); [done |].
    destruct (String.eqb_spec timeframe "weekend"); [done |].
    unfold dt_add.
    assert (in_range (now + 72 * usec_per_hour) = true) as -> by (unfold in_range; lia).
    unfold select, iterate. unfold_monad. simpl.
    by rewrite select_items_filter.
  - intros entry. unfold kept. rewrite list_elem_of_In, filter_In, <- list_elem_of_In.
    unfold not_after. split.
    + intros [Hin Hle]. split; [done |].
      destruct (time_of entry) as [t | |]; [| done | done].
      exists t. split; [done | lia].
    + intros [Hin (t & -> & Hle)]. split; [done | lia].
Qed.
End forecast.

Lemma next_3_days_filter_example :
  filter_entries (E:=forecast_env) "next_3_days" (20000 * usec_per_day)
    (VList [soon_entry; far_entry]) empty_world = (Ok [soon_entry], empty_world).
Proof.
  destruct (next_3_days_filter (E:=forecast_env) "next_3_days" (20000 * usec_per_day)
              [soon_entry; far_entry] empty_world) as [Hrun _];
    [done | done | done | vm_compute; split; discriminate | |].
  - intros entry Hin. apply list_elem_of_In in Hin.
    destruct Hin as [<- | [<- | []]]; by eexists.
  - rewrite Hrun. reflexivity.
Defined.


(** The same through the whole tool, with the forecast fetched as the
    specification describes it. *)
Example get_forecast_keeps_past_entry :
  ∃ v entry,
    (get_forecast (E:=forecast_env) (P:=ExamplePython) (VFloat 0) (VFloat 0)
       "next_3_days" "metric" empty_world).1 = Ok v ∧
    field "count" v = Some (VInt 1) ∧
    field "entries" v = Some (VList [entry]) ∧
    field "timestamp" entry = Some (VInt 0).
Proof.
  eexists. eexists. split; [vm_compute; reflexivity |].
  split; [reflexivity |]. split; reflexivity.
Qed.

Section failures.
Context `{E : Environment} `{P : Python}.

(** Claim C3, at the failing input.  [city_to_coords] has no handler around
    the geocoding call: when the provider answers with a 4xx status other
    than 429, the HTTP status error escapes from the tool, where the claim
    asks for an error-tagged result. *)
Theorem city_to_coords_raises_upstream (city key : string) (w : World) (r : Response) :
  weather_api_key settings = Some key → key ≠ "" →
  http (requests w) "/geo/1.0/direct"
       (geocode_query key city (default_lang settings)) = Responded r →
  400 ≤ status_code r ≤ 499 → status_code r ≠ 429 →
  ∃ w', city_to_coords city w = (Raise (HTTPStatusError r), w').
Proof.
  intros Hkey Hne Hr Hst H429.
  set (c := {| api_key := key; base_url := "https://api.openweathermap.org";
               max_retries := 3; backoff_factor := 1 # 2 |}).
  set (w0 := {| heap := heap w; requests := requests w; queries := queries w;
                log := log w ++ [EvStdout (OutCity city)] |}).
  destruct (geocode_direct_once c city (default_lang settings) w0 r)
    as (w1 & Hgeo & _); [done | done | unfold retried_status; lia |].
  assert (Hfin : finish_outcome r = Raise (HTTPStatusError r)).
  { unfold finish_outcome.
    assert (is_success (status_code r) = false) as ->; [| done].
    unfold is_success. lia. }
  rewrite Hfin in Hgeo.
  unfold city_to_coords, print, with_client.
  unfold mbind at 1. unfold M_bind at 1. simpl. fold w0.
  unfold mbind at 1. unfold M_bind at 1.
  rewrite (new_client_configured key w0 Hkey Hne). fold c.
  unfold try_finally. unfold mbind at 1. unfold M_bind at 1.
  rewrite Hgeo. simpl. eauto.
Qed.
End failures.

Lemma city_to_coords_raises_401 :
  (city_to_coords (E:=example_env (response 401 None) [] 0) (P:=ExamplePython)
     "Paris" empty_world).1 = Raise (HTTPStatusError (response 401 None)).
Proof.
  destruct (city_to_coords_raises_upstream (E:=example_env (response 401 None) [] 0)
              (P:=ExamplePython) "Paris" "secret" empty_world (response 401 None))
    as [w' Hrun]; [reflexivity | done | reflexivity | simpl; lia | done |].
  by rewrite Hrun.
Defined.

(** Claim C5, at the failing input.  The result [get_current_weather] builds
    when its execution raises has the key [error] and seven null fields; the
    keys [temp_unit], [wind_unit], [wind_deg], [pressure] and [visibility] of
    the result of a successful call are missing from it. *)
Theorem get_current_weather_error_shape :
  let lat := VFloat (4885 # 100) in
  let lon := VFloat (235 # 100) in
  let failed := (get_current_weather (E:=example_env (response 401 None) [] 0)
                   (P:=ExamplePython) lat lon "metric" empty_world).1 in
  let succeeded := (get_current_weather
                      (E:=example_env (response 200 (Some (VDict []))) [] 0)
                      (P:=ExamplePython) lat lon "metric" empty_world).1 in
  ∃ v v', failed = Ok v ∧ succeeded = Ok v' ∧
    keys v = ["error"; "temp"; "feels_like"; "condition"; "description";
              "wind_speed"; "humidity"; "clouds"] ∧
    keys v' = ["temp"; "temp_unit"; "feels_like"; "condition"; "description";
               "wind_speed"; "wind_unit"; "wind_deg"; "humidity"; "clouds";
               "pressure"; "visibility"] ∧
    Forall (λ k, k ∈ keys v' ∧ k ∉ keys v)
           ["temp_unit"; "wind_unit"; "wind_deg"; "pressure"; "visibility"].
Proof.
  intros lat lon failed succeeded. subst failed succeeded.
  eexists. eexists. split; [vm_compute; reflexivity |].
  split; [vm_compute; reflexivity |].
  split; [reflexivity |]. split; [reflexivity |].
  repeat constructor; rewrite list_elem_of_In; simpl; intuition discriminate.
Qed.

(** ** The tool-calling loop *)

Section agent.
Context `{E : Environment} `{P : Python}.
Variable self : WeatherAgent.

Lemma registered_true (tool_call : ToolCall) :
  registered self tool_call = true ↔ is_Some (tool_map self !! tc_name tool_call).
Proof. unfold registered. by rewrite bool_decide_eq_true. Qed.

Lemma registered_false (tool_call : ToolCall) :
  registered self tool_call = false ↔ tool_map self !! tc_name tool_call = None.
Proof.
  unfold registered. rewrite bool_decide_eq_false.
  by rewrite <- eq_None_not_Some.
Qed.

(** The calls the loop has handled are answered in order, the registered
    ones and only them. *)
Lemma run_tool_calls_answers (calls : list ToolCall) :
  ∀ (messages messages' : list Message) (w w' : World),
    run_tool_calls self calls messages w = (Ok messages', w') →
    ∃ texts,
      length texts = length (List.filter (registered self) calls) ∧
      messages' = messages ++ answers (List.filter (registered self) calls) texts.
Proof.
  induction calls as [| tool_call rest IH]; intros messages messages' w w' Hrun.
  - simpl in Hrun. inversion Hrun; subst. exists []. by rewrite app_nil_r.
  - simpl in Hrun. unfold mbind at 1 in Hrun. unfold M_bind at 1 in Hrun.
    unfold handle_tool_call in Hrun. simpl.
    destruct (tool_map self !! tc_name tool_call) as [tool |] eqn:Hreg.
    + assert (registered self tool_call = true) as -> by (apply registered_true; eauto).
      unfold_monad. simpl in Hrun.
      destruct (ainvoke tool (tc_args tool_call) _) as [[result | e |] w1];
        [| done | done].
      simpl in Hrun. apply IH in Hrun as (texts & Hlen & ->).
      exists (py_str result :: texts). split; [simpl; by rewrite Hlen |].
      simpl. by rewrite <- !app_assoc.
    + assert (registered self tool_call = false) as -> by by apply registered_false.
      unfold_monad. by apply IH in Hrun.
Qed.

Lemma tool_result_ids_app (a b : list Message) :
  tool_result_ids (a ++ b) = tool_result_ids a ++ tool_result_ids b.
Proof. apply omap_app. Qed.

Lemma tool_result_ids_answers (calls : list ToolCall) :
  ∀ texts, length texts = length calls →
           tool_result_ids (answers calls texts) = tc_id <$> calls.
Proof.
  induction calls as [| c calls IH]; intros [| t texts] Hlen; try done.
  simpl. unfold tool_result_ids in *. simpl. f_equal. apply IH. by inversion Hlen.
Qed.

Lemma filter_all {A} (f : A → bool) (l : list A) :
  Forall (λ x, f x = true) l → List.filter f l = l.
Proof. induction 1 as [| x l Hx _ IH]; simpl; [done | by rewrite Hx, IH]. Qed.

(** Claim C1, amended.  When the name of a requested tool is not in the
    registry, the loop records nothing for that request (no guidance message,
    no Tool Result, no tool invoked) and goes on with the remaining calls of
    the response; the turn is not aborted. *)
Theorem unknown_tool_is_skipped (tool_call : ToolCall) (rest : list ToolCall)
    (messages : list Message) (w : World) :
  tool_map self !! tc_name tool_call = None →
  handle_tool_call self tool_call messages w = (Ok messages, w) ∧
  run_tool_calls self (tool_call :: rest) messages w =
    run_tool_calls self rest messages w.
Proof.
  intros Hnone. assert (Hh : handle_tool_call self tool_call messages w = (Ok messages, w)).
  { unfold handle_tool_call. by rewrite Hnone. }
  split; [done |]. simpl. unfold mbind at 1. unfold M_bind at 1. by rewrite Hh.
Qed.

(** Claim C2, amended.  When an iteration of the loop in which the model
    emitted tool-call requests completes, the conversation passed to the next
    model query is the system message, the user message, the response of the
    model and then, for each request whose tool is registered, in emission
    order, a guidance message followed by one Tool Result with the call id of
    the request.  The Tool Results are as many as the requests of registered
    tools, with the same call ids in the same order; they match the requests
    of the turn one to one when every requested tool is registered. *)
Theorem next_query_messages (message : string) (messages : list Message)
    (tally : Usage) (w : World) (messages' : list Message) (tally' : Usage)
    (w' : World) :
  turn self message messages tally w = (Ok (Next messages' tally'), w') →
  ∃ response texts,
    llm (queries w) messages = Ok response ∧
    let answered := List.filter (registered self) (tool_calls response) in
    length texts = length answered ∧
    messages' = [SystemMessage (system_prompt self); HumanMessage message; AI response]
                  ++ answers answered texts ∧
    tool_result_ids messages' = tc_id <$> answered ∧
    (Forall (λ c, is_Some (tool_map self !! tc_name c)) (tool_calls response) →
     tool_result_ids messages' = tc_id <$> tool_calls response) ∧
    ∀ fuel, invoke_loop self message (S fuel) messages tally w =
            invoke_loop self message fuel messages' tally' w'.
Proof.
  intros Hturn.
  assert (Hloop : ∀ fuel, invoke_loop self message (S fuel) messages tally w =
                          invoke_loop self message fuel messages' tally' w').
  { intros fuel. simpl. unfold mbind at 1. unfold M_bind at 1. by rewrite Hturn. }
  unfold turn in Hturn. unfold mbind at 1 in Hturn. unfold M_bind at 1 in Hturn.
  unfold ask_model in Hturn. simpl in Hturn.
  destruct (llm (queries w) messages) as [response | e |] eqn:Hllm; [| done | done].
  unfold mbind at 1 in Hturn. unfold M_bind at 1, print, emit in Hturn.
  simpl in Hturn.
  destruct (tool_calls response) as [| c calls] eqn:Hcalls.
  { unfold_monad. simpl in Hturn. inversion Hturn. }
  rewrite <- Hcalls in *.
  assert (∃ w1, (ms ← run_tool_calls self (tool_calls response)
                        [SystemMessage (system_prompt self); HumanMessage message;
                         AI response]; mret (Next ms (add_usage tally (usage_metadata response)))) w1
                = (Ok (Next messages' tally'), w')) as [w1 Hrun].
  { rewrite Hcalls in Hturn |- *. eauto. }
  clear Hturn. unfold mbind, M_bind in Hrun.
  destruct (run_tool_calls self _ _ w1) as [[ms | e |] w2] eqn:Hrt; [| done | done].
  unfold_monad. inversion Hrun; subst.
  apply run_tool_calls_answers in Hrt as (texts & Hlen & ->).
  exists response, texts. split; [done |]. simpl.
  split; [done |]. split; [done |].
  assert (Hids : tool_result_ids
            ([SystemMessage (system_prompt self); HumanMessage message; AI response] ++
             answers (List.filter (registered self) (tool_calls response)) texts)
          = tc_id <$> List.filter (registered self) (tool_calls response)).
  { rewrite tool_result_ids_app. simpl. by apply tool_result_ids_answers. }
  split; [exact Hids |]. split; [| exact Hloop].
  intros Hall. etransitivity; [exact Hids |]. f_equal. apply filter_all.
  eapply Forall_impl; [exact Hall |]. intros c0 Hc0. by apply registered_true.
Qed.

(** Claim C4, amended.  When the response of the model carries no tool-call
    request, the loop terminates at once, whatever iterations remain, without
    invoking any tool: it returns the response message itself and prints the
    tally, which is the tally of the earlier queries plus the counters of this
    response.  The tally is printed, not returned. *)
Theorem final_answer_returns (message : string) (fuel : nat)
    (messages : list Message) (tally : Usage) (w : World) (response : AIMessage) :
  llm (queries w) messages = Ok response →
  tool_calls response = [] →
  let printed := [EvModel messages (Ok response);
                  EvStdout (OutToolCalls []);
                  EvStdout (OutUsage (add_usage tally (usage_metadata response)))] in
  invoke_loop self message (S fuel) messages tally w =
    (Ok response,
     {| heap := heap w; requests := requests w; queries := S (queries w);
        log := log w ++ printed |}) ∧
  tools_invoked printed = [].
Proof.
  intros Hllm Hcalls printed. split; [| done].
  simpl. unfold turn, ask_model. unfold_monad. simpl. rewrite Hllm. simpl.
  rewrite Hcalls. simpl. by rewrite <- !app_assoc.
Qed.
End agent.

Lemma unknown_tool_is_skipped_example :
  tool_map (example_agent []) !! tc_name call_forecast = None ∧
  run_tool_calls (P:=ExamplePython) (example_agent []) [call_forecast; call_forecast] []
    empty_world = (Ok [], empty_world).
Proof.
  assert (Hnone : tool_map (example_agent []) !! tc_name call_forecast = None)
    by (vm_compute; reflexivity).
  split; [exact Hnone |].
  destruct (unknown_tool_is_skipped (P:=ExamplePython) (example_agent []) call_forecast
              [call_forecast] [] empty_world Hnone) as [_ Hrun].
  rewrite Hrun. vm_compute. reflexivity.
Defined.

Lemma unknown_tool_gets_no_result :
  ∃ messages tally w',
    turn (E:=agent_env [asks [call_forecast]]) (P:=ExamplePython)
      (example_agent [asks [call_forecast]])
      "Will it rain in Paris tomorrow?"
      [SystemMessage (system_prompt (example_agent [asks [call_forecast]]));
       HumanMessage "Will it rain in Paris tomorrow?"] zero_usage empty_world
      = (Ok (Next messages tally), w') ∧
    tool_map (example_agent [asks [call_forecast]]) !! tc_name call_forecast = None ∧
    messages = [SystemMessage (system_prompt (example_agent [asks [call_forecast]]));
                HumanMessage "Will it rain in Paris tomorrow?";
                AI (asks [call_forecast])] ∧
    ∀ text, ToolMessage text (tc_id call_forecast) ∉ messages.
Proof.
  eexists. eexists. eexists.
  split; [vm_compute; reflexivity |].
  split; [vm_compute; reflexivity |].
  split; [reflexivity |].
  intros text Hin. rewrite list_elem_of_In in Hin. simpl in Hin.
  intuition discriminate.
Qed.

Lemma next_query_messages_example :
  ∃ messages tally,
    (turn (E:=agent_env [asks [call_locate]]) (P:=ExamplePython)
       (example_agent [asks [call_locate]])
       "Weather in Paris?"
       [SystemMessage (system_prompt (example_agent [asks [call_locate]]));
        HumanMessage "Weather in Paris?"]
       zero_usage empty_world).1 = Ok (Next messages tally) ∧
    tool_result_ids messages = ["call_1"].
Proof.
  eassert (Hturn : turn (E:=agent_env [asks [call_locate]]) (P:=ExamplePython)
                     (example_agent [asks [call_locate]])
                     "Weather in Paris?"
                     [SystemMessage (system_prompt (example_agent [asks [call_locate]]));
                      HumanMessage "Weather in Paris?"]
                     zero_usage empty_world = (Ok (Next _ _), _))
    by (vm_compute; reflexivity).
  destruct (next_query_messages (E:=agent_env [asks [call_locate]]) (P:=ExamplePython)
              _ _ _ _ _ _ _ _ Hturn)
    as (response & texts & Hllm & _ & _ & Hids & _).
  rewrite Hturn. eexists. eexists. split; [reflexivity |].
  rewrite Hids. injection Hllm as <-. vm_compute. reflexivity.
Defined.

Lemma unregistered_call_is_not_answered :
  ∃ messages tally w',
    turn (E:=agent_env [asks [call_locate; call_forecast]]) (P:=ExamplePython)
      (example_agent [asks [call_locate; call_forecast]])
      "Weather in Paris?"
      [SystemMessage (system_prompt (example_agent [asks [call_locate; call_forecast]]));
       HumanMessage "Weather in Paris?"]
      zero_usage empty_world = (Ok (Next messages tally), w') ∧
    tc_id <$> tool_calls (asks [call_locate; call_forecast]) = ["call_1"; "call_2"] ∧
    tool_result_ids messages = ["call_1"] ∧
    length (tool_result_ids messages)
      ≠ length (tool_calls (asks [call_locate; call_forecast])).
Proof.
  eexists. eexists. eexists.
  split; [vm_compute; reflexivity |].
  split; [reflexivity |]. split; [reflexivity |]. simpl. lia.
Qed.

Lemma final_answer_returns_example :
  (invoke (E:=agent_env [final_answer]) (P:=ExamplePython)
     (example_agent [final_answer]) "Hello" 1 empty_world).1 = Ok final_answer.
Proof.
  destruct (final_answer_returns (E:=agent_env [final_answer]) (P:=ExamplePython)
              (example_agent [final_answer]) "Hello" 0
              [SystemMessage (system_prompt (example_agent [final_answer]));
               HumanMessage "Hello"]
              zero_usage empty_world final_answer) as [Hrun _];
    [reflexivity | reflexivity |].
  unfold invoke. rewrite Hrun. reflexivity.
Defined.

Lemma returned_usage_is_not_the_tally :
  ∃ r w' tally,
    invoke (E:=agent_env [asks [call_locate]; final_answer]) (P:=ExamplePython)
      (example_agent [asks [call_locate]; final_answer]) "Weather in Paris?" 2
      empty_world = (Ok r, w') ∧
    r = final_answer ∧
    last (log w') = Some (EvStdout (OutUsage tally)) ∧
    tally = {| input_tokens := 30; output_tokens := 12; total_tokens := 42 |} ∧
    usage_metadata r ≠ tally.
Proof.
  eexists. eexists. eexists.
  split; [vm_compute; reflexivity |].
  split; [reflexivity |]. split; [reflexivity |]. split; [reflexivity |].
  simpl. discriminate.
Qed.

(** ** The tally of an invocation *)

Lemma pure_model_free {A} (m : M A) : pure m → model_free m.
Proof. intros Hp w. exists []. by rewrite Hp, app_nil_r. Qed.

Lemma model_free_ret {A} (a : A) : model_free (mret a).
Proof. by apply pure_model_free. Qed.

Lemma model_free_raise {A} (e : exn) : model_free (raise e : M A).
Proof. by apply pure_model_free. Qed.

Lemma model_free_bind {A B} (m : M A) (f : A → M B) :
  model_free m → (∀ a, model_free (f a)) → model_free (m ≫= f).
Proof.
  intros Hm Hf w. unfold mbind, M_bind. destruct (Hm w) as (n1 & Hl1 & Hq1).
  destruct (m w) as [[a | e |] w1]; simpl in *; [| by eauto | by eauto].
  destruct (Hf a w1) as (n2 & Hl2 & Hq2). exists (n1 ++ n2).
  rewrite Hl2, Hl1, <- app_assoc. split; [done |]. by apply Forall_app.
Qed.

Lemma model_free_try_except {A} (body : M A) (handler : exn → M A) :
  model_free body → (∀ e, model_free (handler e)) →
  model_free (try_except body handler).
Proof.
  intros Hb Hh w. unfold try_except. destruct (Hb w) as (n1 & Hl1 & Hq1).
  destruct (body w) as [[a | e |] w1]; simpl in *; [by eauto | | by eauto].
  destruct (Hh e w1) as (n2 & Hl2 & Hq2). exists (n1 ++ n2).
  rewrite Hl2, Hl1, <- app_assoc. split; [done |]. by apply Forall_app.
Qed.

Lemma model_free_try_finally {A} (body : M A) (final : M unit) :
  model_free body → model_free final → model_free (try_finally body final).
Proof.
  intros Hb Hf w. unfold try_finally. destruct (Hb w) as (n1 & Hl1 & Hq1).
  destruct (body w) as [[a | e |] w1]; simpl in *; [| | by eauto];
    destruct (Hf w1) as (n2 & Hl2 & Hq2);
    (exists (n1 ++ n2); split; [| by apply Forall_app]);
    destruct (final w1) as [[[] | e' |] w2]; simpl in *;
    by rewrite Hl2, Hl1, <- app_assoc.
Qed.

Lemma model_free_emit (e : Event) : is_model_event e = false → model_free (emit e).
Proof. intros He w. exists [e]. split; [done | by constructor]. Qed.

Lemma model_free_print line : model_free (print line).
Proof. by apply model_free_emit. Qed.

Lemma model_free_alloc (d : dict) : model_free (alloc d).
Proof. intros w. exists []. by rewrite app_nil_r. Qed.

Lemma model_free_setitem l k v : model_free (setitem l k v).
Proof. intros w. exists []. by rewrite app_nil_r. Qed.

Lemma model_free_dict_get v k dflt : model_free (dict_get v k dflt).
Proof. apply pure_model_free. intros w. by destruct v. Qed.

Lemma model_free_getitem v k : model_free (getitem v k).
Proof.
  apply pure_model_free. intros w. destruct v; try done. simpl. by destruct (assoc k d).
Qed.

Lemma model_free_subscript0 v : model_free (subscript0 v).
Proof. apply pure_model_free. intros w. destruct v as [| | | | [] | [] |]; done. Qed.

Lemma model_free_iadd_str v s : model_free (iadd_str v s).
Proof. apply pure_model_free. intros w. by destruct v. Qed.

Lemma model_free_set_lang p lang : model_free (set_lang p lang).
Proof.
  destruct lang as [l |]; simpl; [| apply model_free_ret].
  destruct (l =? "")%string; [apply model_free_ret | apply model_free_setitem].
Qed.

Lemma model_free_arg_float d k : model_free (arg_float d k).
Proof.
  apply pure_model_free. intros w. unfold arg_float.
  by destruct (assoc k d) as [[] |].
Qed.

Lemma model_free_arg_str d k dflt : model_free (arg_str d k dflt).
Proof.
  apply pure_model_free. intros w. unfold arg_str.
  by destruct (assoc k d) as [[] |], dflt.
Qed.

Create HintDb model_free.

#[local] Hint Resolve model_free_ret model_free_raise model_free_print model_free_alloc
  model_free_setitem model_free_dict_get model_free_getitem model_free_subscript0
  model_free_iadd_str model_free_set_lang model_free_arg_float model_free_arg_str
  : model_free.

Ltac model_free_step :=
  first [ solve [eauto with model_free]
        | match goal with |- model_free (if ?b then _ else _) => destruct b end
        | apply model_free_try_except; [| intros ?]
        | apply model_free_try_finally
        | apply model_free_bind; [| intros ?] ].

Section tally.
Context `{E : Environment} `{P : Python}.

Lemma model_free_new_client : model_free new_client.
Proof.
  apply pure_model_free. intros w. unfold new_client, OpenWeatherClient__init__.
  destruct (or_string _ _) as [k |]; [| done]. by destruct (k =? "")%string.
Qed.

Lemma model_free_aclose c : model_free (aclose c).
Proof. by apply model_free_emit. Qed.

Lemma model_free_get self path params : model_free (_get self path params).
Proof.
  intros w. destruct (get_prepare self path params w) as (qp & h & -> & _).
  match goal with |- context [_get_loop _ _ _ ?f ?a ?l ?w0] =>
    destruct (get_loop_frame self path qp f a l w0) as (_ & _ & new & Hl & _ & Hm) end.
  exists new. by rewrite Hl.
Qed.

#[local] Hint Resolve model_free_new_client model_free_aclose model_free_get : model_free.

Lemma model_free_with_client {A} (body : OpenWeatherClient → M A) :
  (∀ c, model_free (body c)) → model_free (with_client body).
Proof. intros Hb. unfold with_client. repeat model_free_step; apply Hb. Qed.

Lemma model_free_geocode_direct c q limit lang :
  model_free (geocode_direct c q limit lang).
Proof. unfold geocode_direct. repeat model_free_step. Qed.

Lemma model_free_current_weather c lat lon units lang :
  model_free (current_weather c lat lon units lang).
Proof. unfold current_weather. repeat model_free_step. Qed.

Lemma model_free_append_part place key n : model_free (append_part place key n).
Proof. unfold append_part. repeat model_free_step. Qed.

#[local] Hint Resolve model_free_geocode_direct model_free_current_weather
  model_free_append_part : model_free.

Lemma model_free_city_to_coords city : model_free (city_to_coords city).
Proof.
  unfold city_to_coords. apply model_free_bind; [eauto with model_free | intros _].
  apply model_free_with_client. intros c. repeat model_free_step.
Qed.

Lemma model_free_get_current_weather lat lon units :
  model_free (get_current_weather lat lon units).
Proof.
  unfold get_current_weather, current_weather_body.
  apply model_free_bind; [eauto with model_free | intros _].
  apply model_free_try_except; [| intros e; apply model_free_ret].
  apply model_free_bind; [| intros raw; repeat model_free_step].
  apply model_free_with_client. intros c. eauto with model_free.
Qed.

#[local] Hint Resolve model_free_city_to_coords model_free_get_current_weather
  : model_free.

(** The tools of the agent do not query the model. *)
Lemma model_free_tools_init : model_free_tools WeatherAgent__init__.
Proof.
  intros tool_name tool args Hlook.
  unfold WeatherAgent__init__, make_tool_map in Hlook. simpl in Hlook.
  apply lookup_insert_Some in Hlook as [[_ <-] | [_ Hlook]].
  - simpl. destruct args; try apply model_free_raise.
    repeat model_free_step.
  - apply lookup_insert_Some in Hlook as [[_ <-] | [_ Hlook]]; [| done].
    simpl. destruct args; try apply model_free_raise.
    repeat model_free_step.
Qed.

Lemma add_usage_zero_r (u : Usage) : add_usage u zero_usage = u.
Proof. destruct u. unfold add_usage. simpl. f_equal; lia. Qed.

Lemma add_usage_zero_l (u : Usage) : add_usage zero_usage u = u.
Proof. destruct u. unfold add_usage. simpl. f_equal; lia. Qed.

Lemma add_usage_assoc (a b c : Usage) :
  add_usage (add_usage a b) c = add_usage a (add_usage b c).
Proof. unfold add_usage. simpl. f_equal; lia. Qed.

Lemma usage_of_log_from (u : Usage) (l : list Event) :
  foldl (λ u e, add_usage u (usage_of_event e)) u l = add_usage u (usage_of_log l).
Proof.
  unfold usage_of_log. revert u. induction l as [| e l IH] using rev_ind; intros u.
  - simpl. by rewrite add_usage_zero_r.
  - rewrite !foldl_app. simpl. rewrite IH. by rewrite add_usage_assoc.
Qed.

Lemma usage_of_log_app (a b : list Event) :
  usage_of_log (a ++ b) = add_usage (usage_of_log a) (usage_of_log b).
Proof. unfold usage_of_log at 1. rewrite foldl_app. apply usage_of_log_from. Qed.

Lemma usage_of_log_model_free (l : list Event) :
  Forall (λ e, is_model_event e = false) l → usage_of_log l = zero_usage.
Proof.
  induction 1 as [| e l He _ IH]; [done |].
  change (e :: l) with ([e] ++ l). rewrite usage_of_log_app, IH, add_usage_zero_r.
  by destruct e.
Qed.

Variable self : WeatherAgent.
Hypothesis Htools : model_free_tools self.

Lemma model_free_run_tool_calls (calls : list ToolCall) :
  ∀ messages, model_free (run_tool_calls self calls messages).
Proof.
  induction calls as [| c calls IH]; intros messages; simpl; [apply model_free_ret |].
  apply model_free_bind; [| intros ms; apply IH].
  unfold handle_tool_call.
  destruct (tool_map self !! tc_name c) as [tool |] eqn:Hl; [| apply model_free_ret].
  apply model_free_bind; [by apply model_free_emit | intros _].
  apply model_free_bind; [by eapply Htools | intros result].
  repeat model_free_step.
Qed.

(** The tally printed with the final answer is the sum of the counters of
    all the answers of the model since the given state of the loop. *)
Lemma invoke_loop_tally (message : string) (fuel : nat) :
  ∀ (messages : list Message) (tally : Usage) (w w' : World) (r : AIMessage),
    invoke_loop self message fuel messages tally w = (Ok r, w') →
    ∃ new, log w' = log w ++ new ∧
           last new = Some (EvStdout (OutUsage (add_usage tally (usage_of_log new)))).
Proof.
  induction fuel as [| fuel IH]; intros messages tally w w' r Hrun; [done |].
  simpl in Hrun. unfold mbind at 1 in Hrun. unfold M_bind at 1 in Hrun.
  unfold turn in Hrun. unfold mbind at 1 in Hrun. unfold M_bind at 1 in Hrun.
  unfold ask_model in Hrun. simpl in Hrun.
  destruct (llm (queries w) messages) as [response | e |] eqn:Hllm; [| done | done].
  unfold mbind at 1 in Hrun. unfold M_bind at 1, print, emit in Hrun. simpl in Hrun.
  destruct (tool_calls response) as [| c calls] eqn:Hcalls.
  - unfold_monad. simpl in Hrun. inversion Hrun; subst. eexists.
    split; [rewrite <- !app_assoc; reflexivity |]. simpl.
    do 3 f_equal. unfold usage_of_log. simpl. unfold add_usage. simpl. f_equal; lia.
  - change (handle_tool_call self c ?ms ≫= (λ m, run_tool_calls self calls m))
      with (run_tool_calls self (c :: calls) ms) in Hrun.
    unfold mbind at 1 in Hrun. unfold M_bind at 1 in Hrun.
    match type of Hrun with context [run_tool_calls self ?cs ?ms ?w0] =>
      destruct (model_free_run_tool_calls cs ms w0) as (n1 & Hl1 & Hq1);
      destruct (run_tool_calls self cs ms w0) as [[ms' | e |] w1] eqn:Hrt end;
      [| done | done].
    unfold_monad. simpl in *.
    apply IH in Hrun as (n2 & Hl2 & Hlast).
    exists ([EvModel messages (Ok response); EvStdout (OutToolCalls (c :: calls))]
              ++ n1 ++ n2).
    split.
    + rewrite Hl2, Hl1. by rewrite <- !app_assoc.
    + assert (Hne : n2 ≠ []) by (by destruct n2).
      rewrite !app_assoc. rewrite last_app. rewrite Hlast. do 3 f_equal.
      rewrite <- !app_assoc. rewrite !usage_of_log_app.
      rewrite (usage_of_log_model_free n1 Hq1).
      assert (Hq : usage_of_log [EvModel messages (Ok response);
                                 EvStdout (OutToolCalls (c :: calls))]
                   = usage_metadata response).
      { unfold usage_of_log. simpl. by rewrite add_usage_zero_r, add_usage_zero_l. }
      rewrite Hq, add_usage_zero_l. by rewrite add_usage_assoc.
Qed.
End tally.

(** With the tools of [WeatherAgent()], the tally printed with the final
    answer is the sum of the counters of every answer of the model during
    the invocation. *)
Lemma invoke_prints_total_usage `{E : Environment} `{P : Python} (message : string)
    (fuel : nat) (w w' : World) (r : AIMessage) :
  invoke WeatherAgent__init__ message fuel w = (Ok r, w') →
  ∃ new, log w' = log w ++ new ∧
         last new = Some (EvStdout (OutUsage (usage_of_log new))).
Proof.
  intros Hrun. unfold invoke in Hrun.
  apply (invoke_loop_tally _ model_free_tools_init) in Hrun as (new & Hl & Hlast).
  exists new. split; [done |]. by rewrite add_usage_zero_l in Hlast.
Qed.

(** * Further properties *)

(** ** The GET of the client, whatever the provider answers *)

Section get_outcomes.
Context `{E : Environment} `{P : Python}.
Variable self : OpenWeatherClient.
Variable path : string.

Lemma get_loop_outcomes (qp : loc) (os : list HttpOutcome) :
  ∀ (fuel : nat) (attempt : Z) (last : option exn) (w : World) (o : HttpOutcome),
    let d := default ∅ (heap w !! qp) in
    attempt + Z.of_nat (length os) < max_retries self →
    (length os < fuel)%nat →
    (∀ i o', os !! i = Some o' →
             http (requests w + i)%nat path d = o' ∧ retried o' = true) →
    http (requests w + length os)%nat path d = o →
    retried o = false ∨ attempt + Z.of_nat (length os) + 1 = max_retries self →
    _get_loop self path qp fuel attempt last w =
      (final_outcome o,
       {| heap := heap w;
          requests := S (requests w + length os);
          queries := queries w;
          log := log w ++ retried_attempts self path d attempt os
                       ++ last_attempt path d o |}).
Proof.
  induction os as [| o0 os IH]; intros fuel attempt last w o d Hlt Hfuel Hos Ho Hstop.
  - simpl in *. destruct fuel as [| fuel]; [lia |].
    rewrite Nat.add_0_r in *.
    simpl. assert ((attempt <? max_retries self) = true) as -> by lia.
    unfold_monad. simpl. fold d. rewrite Ho.
    assert (retried o && (attempt + 1 <? max_retries self) = false) as Hno.
    { destruct Hstop as [-> | Heq]; [done |]. apply andb_false_iff. right. lia. }
    destruct o as [r | e]; simpl in *.
    + fold d. unfold finish_outcome.
      destruct (retried_status (status_code r)); simpl in Hno; rewrite ?Hno;
        (destruct (is_success (status_code r)); simpl;
           [destruct (json r) |]; unfold_monad; simpl; rewrite <- ?app_assoc;
           reflexivity).
    + destruct (retried_error e); simpl in Hno; rewrite ?Hno; reflexivity.
  - simpl in Hlt, Hfuel. destruct fuel as [| fuel]; [lia |].
    destruct (Hos 0%nat o0 eq_refl) as [H0 Hret0].
    rewrite Nat.add_0_r in H0.
    simpl. assert ((attempt <? max_retries self) = true) as -> by lia.
    assert ((attempt + 1 <? max_retries self) = true) as Hmore by lia.
    unfold_monad. simpl. fold d. rewrite H0.
    destruct o0 as [r0 | e0]; simpl in Hret0 |- *; rewrite Hret0, Hmore; simpl.
    + erewrite (IH fuel (attempt + 1) last _ o); simpl.
      * fold d. f_equal. f_equal; [lia |]. rewrite <- !app_assoc. reflexivity.
      * lia.
      * lia.
      * intros i o' Hi. specialize (Hos (S i) o' Hi). by rewrite <- Nat.add_succ_r.
      * simpl in Ho. by rewrite <- Nat.add_succ_r.
      * destruct Hstop as [? | Heq]; [by left | right]. simpl in Heq. lia.
    + erewrite (IH fuel (attempt + 1) _ _ o); simpl.
      * fold d. f_equal. f_equal; [lia |]. rewrite <- !app_assoc. reflexivity.
      * lia.
      * lia.
      * intros i o' Hi. specialize (Hos (S i) o' Hi). by rewrite <- Nat.add_succ_r.
      * simpl in Ho. by rewrite <- Nat.add_succ_r.
      * destruct Hstop as [? | Heq]; [by left | right]. simpl in Heq. lia.
Qed.

(** The result of a GET is decided by the first answer that is not retried,
    or by the answer to the last attempt. *)
Lemma get_outcomes (params : option loc) (w : World) (os : list HttpOutcome)
    (o : HttpOutcome) :
  let d := with_appid self (params_dict params w) in
  Z.of_nat (length os) < max_retries self →
  (∀ i o', os !! i = Some o' →
           http (requests w + i)%nat path d = o' ∧ retried o' = true) →
  http (requests w + length os)%nat path d = o →
  retried o = false ∨ Z.of_nat (length os) + 1 = max_retries self →
  ∃ w', _get self path params w = (final_outcome o, w') ∧
        requests w' = (requests w + length os + 1)%nat ∧
        queries w' = queries w ∧
        log w' = log w ++ retried_attempts self path d 0 os ++ last_attempt path d o.
Proof.
  intros d Hlen Hos Ho Hstop.
  destruct (get_prepare self path params w) as (qp & h & -> & Hqp & _ & _).
  set (w0 := {| heap := h; requests := requests w; queries := queries w; log := log w |}).
  assert (Hd : default ∅ (h !! qp) = d) by (by rewrite Hqp).
  rewrite (get_loop_outcomes qp os _ 0 None w0 o); simpl; rewrite ?Hd;
    [| lia | lia | done | done | destruct Hstop; [by left | right; lia]].
  eexists. split; [reflexivity |]. simpl. split; [lia | done].
Qed.

(** The requests and the sleeps of a GET are counted: at least one request,
    at most [max_retries], and a sleep between two requests only. *)
Lemma get_loop_budget (qp : loc) (fuel : nat) :
  ∀ (attempt : Z) (last : option exn) (w : World),
    attempt < max_retries self →
    max_retries self - attempt ≤ Z.of_nat fuel →
    let r := _get_loop self path qp fuel attempt last w in
    (∀ msg, r.1 ≠ Raise (RuntimeError msg)) ∧
    ∃ (k : nat) (new : list Event),
      (1 ≤ k)%nat ∧ Z.of_nat k ≤ max_retries self - attempt ∧
      requests r.2 = (requests w + k)%nat ∧
      log r.2 = log w ++ new ∧
      length (requests_sent new) = k ∧
      length (sleeps new) = (k - 1)%nat ∧
      traffic new = paced (k - 1).
Proof.
  induction fuel as [| fuel IH]; intros attempt last w Hlt Hfuel; [lia |].
  simpl. assert ((attempt <? max_retries self) = true) as -> by lia.
  unfold_monad. simpl.
  set (d := default ∅ (heap w !! qp)).
  assert (Hone : ∀ (o : Outcome value) (evs : list Event),
             (∀ msg, o ≠ Raise (RuntimeError msg)) →
             length (requests_sent evs) = 1%nat → sleeps evs = [] →
             traffic evs = [Sent] →
             (∀ msg, o ≠ Raise (RuntimeError msg)) ∧
             ∃ (k : nat) (new : list Event),
               (1 ≤ k)%nat ∧ Z.of_nat k ≤ max_retries self - attempt ∧
               S (requests w) = (requests w + k)%nat ∧
               log w ++ evs = log w ++ new ∧
               length (requests_sent new) = k ∧
               length (sleeps new) = (k - 1)%nat ∧
               traffic new = paced (k - 1)).
  { intros o evs Ho Hr Hs Ht. split; [done |]. exists 1%nat, evs.
    rewrite Hs, Ht. repeat split; try done; lia. }
  assert (Hmore : ∀ (evs : list Event) (last' : option exn),
             attempt + 1 < max_retries self →
             length (requests_sent evs) = 1%nat → length (sleeps evs) = 1%nat →
             traffic evs = [Sent; Slept] →
             let r := _get_loop self path qp fuel (attempt + 1) last'
                        {| heap := heap w; requests := S (requests w);
                           queries := queries w; log := log w ++ evs |} in
             (∀ msg, r.1 ≠ Raise (RuntimeError msg)) ∧
             ∃ (k : nat) (new : list Event),
               (1 ≤ k)%nat ∧ Z.of_nat k ≤ max_retries self - attempt ∧
               requests r.2 = (requests w + k)%nat ∧
               log r.2 = log w ++ new ∧
               length (requests_sent new) = k ∧
               length (sleeps new) = (k - 1)%nat ∧
               traffic new = paced (k - 1)).
  { intros evs last' Hlt' Hr Hs Ht r.
    destruct (IH (attempt + 1) last'
                {| heap := heap w; requests := S (requests w);
                   queries := queries w; log := log w ++ evs |})
      as (Hrt & k & new & Hk1 & Hk2 & Hreq & Hlog & Hnr & Hns & Htr); [lia | lia |].
    split; [exact Hrt |]. exists (S k), (evs ++ new). fold r in Hreq, Hlog.
    simpl in Hreq, Hlog. rewrite Hreq, Hlog.
    assert (Htraffic : traffic (evs ++ new) = paced (S k - 1)).
    { unfold traffic in *. rewrite omap_app, Ht, Htr.
      destruct k as [| k]; [lia |]. simpl. by rewrite Nat.sub_0_r. }
    unfold requests_sent, sleeps in *. rewrite !omap_app, !length_app, Hr, Hs, Hnr, Hns.
    repeat split; try lia; [by rewrite app_assoc | exact Htraffic]. }
  destruct (http (requests w) path d) as [resp | e]; simpl.
  - destruct (retried_status (status_code resp)); simpl.
    + destruct (attempt + 1 <? max_retries self) eqn:Hnext; simpl.
      * rewrite <- !app_assoc. apply Hmore; [lia | done | done | done].
      * destruct (is_success (status_code resp)); simpl;
          [destruct (json resp) |]; simpl; rewrite <- ?app_assoc;
          by apply Hone.
    + destruct (is_success (status_code resp)); simpl;
        [destruct (json resp) |]; simpl; rewrite <- ?app_assoc;
        by apply Hone.
  - destruct (retried_error e); simpl.
    + destruct (attempt + 1 <? max_retries self) eqn:Hnext; simpl.
      * rewrite <- !app_assoc. apply Hmore; [lia | done | done | done].
      * by apply Hone.
    + by apply Hone.
Qed.
End get_outcomes.

(** A GET returns the JSON body of the first 2xx answer, after the answers
    it retried (429, 5xx, or a caught transport error), each followed by a
    sleep; a 2xx body that is not JSON raises at once. *)
Theorem get_returns_after_retries `{E : Environment} `{P : Python}
    (self : OpenWeatherClient) (path : string) (params : option loc) (w : World)
    (os : list HttpOutcome) (r : Response) :
  let d := with_appid self (params_dict params w) in
  Z.of_nat (length os) < max_retries self →
  (∀ i o', os !! i = Some o' →
           http (requests w + i)%nat path d = o' ∧ retried o' = true) →
  http (requests w + length os)%nat path d = Responded r →
  200 ≤ status_code r ≤ 299 →
  ∃ w', _get self path params w =
          (match json r with
           | Some v => Ok v
           | None => Raise JSONDecodeError
           end, w') ∧
        requests w' = (requests w + length os + 1)%nat ∧
        log w' = log w ++ retried_attempts self path d 0 os
                       ++ [EvRequest path d; EvStdout (OutUrl path d)] ∧
        length (sleeps (retried_attempts self path d 0 os)) = length os.
Proof.
  intros d Hlen Hos Hr Hst.
  destruct (get_outcomes self path params w os (Responded r))
    as (w' & Hrun & Hreq & _ & Hlog); [done | done | done | |].
  { left. simpl. unfold retried_status. lia. }
  exists w'. simpl in Hrun. unfold finish_outcome in Hrun.
  assert (is_success (status_code r) = true) as Hs by (unfold is_success; lia).
  rewrite Hs in Hrun. split; [exact Hrun |]. split; [exact Hreq |].
  split; [exact Hlog |].
  clear. generalize 0. induction os as [| [r0 | e0] os IH]; intros a; simpl; [done | |];
    unfold sleeps in *; simpl; by rewrite IH.
Qed.

(** A transport error ends a GET when it is not one of the four the client
    catches, or when it answers the last attempt: the error is raised as it
    is, after the retried answers. *)
Theorem get_raises_transport_error `{E : Environment} `{P : Python}
    (self : OpenWeatherClient) (path : string) (params : option loc) (w : World)
    (os : list HttpOutcome) (e : httpx_error) :
  let d := with_appid self (params_dict params w) in
  Z.of_nat (length os) < max_retries self →
  (∀ i o', os !! i = Some o' →
           http (requests w + i)%nat path d = o' ∧ retried o' = true) →
  http (requests w + length os)%nat path d = Failed e →
  (e ≠ ConnectError ∧ e ≠ ReadTimeout ∧ e ≠ WriteError ∧ e ≠ RemoteProtocolError) ∨
    Z.of_nat (length os) + 1 = max_retries self →
  ∃ w', _get self path params w = (Raise (TransportError e), w') ∧
        requests w' = (requests w + length os + 1)%nat ∧
        log w' = log w ++ retried_attempts self path d 0 os ++ [EvRequest path d].
Proof.
  intros d Hlen Hos He Hstop.
  destruct (get_outcomes self path params w os (Failed e))
    as (w' & Hrun & Hreq & _ & Hlog); [done | done | done | | by eauto].
  destruct Hstop as [(? & ? & ? & ?) | ?]; [left | by right].
  by destruct e.
Qed.

Lemma get_counts `{E : Environment} `{P : Python}
    (self : OpenWeatherClient) (path : string) (params : option loc) (w : World) :
  1 ≤ max_retries self →
  ∃ (k : nat) (new : list Event),
    (1 ≤ k)%nat ∧ Z.of_nat k ≤ max_retries self ∧
    requests (_get self path params w).2 = (requests w + k)%nat ∧
    log (_get self path params w).2 = log w ++ new ∧
    length (requests_sent new) = k ∧
    length (sleeps new) = (k - 1)%nat ∧
    traffic new = paced (k - 1).
Proof.
  intros Hmax.
  destruct (get_prepare self path params w) as (qp & h & -> & _).
  match goal with |- context [_get_loop _ _ _ ?f ?a ?l ?w0] =>
    destruct (get_loop_budget self path qp f a l w0)
      as (_ & k & new & Hk1 & Hk2 & Hreq & Hlog & Hnr & Hns & Htr) end; [lia | lia |].
  exists k, new. simpl in *. repeat split; try done. lia.
Qed.

(** Whatever the provider answers, a GET sends at least one request and at
    most [max_retries], and sleeps exactly once between two consecutive
    requests, never before the first nor after the last: its requests and
    sleeps, in the order of the log, are a request, then a sleep followed by
    a request for each further attempt. *)
Theorem get_request_budget `{E : Environment} `{P : Python}
    (self : OpenWeatherClient) (path : string) (params : option loc) (w : World) :
  1 ≤ max_retries self →
  let w' := (_get self path params w).2 in
  ∃ (k : nat) (new : list Event),
    (1 ≤ k)%nat ∧ Z.of_nat k ≤ max_retries self ∧
    requests w' = (requests w + k)%nat ∧
    log w' = log w ++ new ∧
    length (requests_sent new) = k ∧
    length (sleeps new) = (k - 1)%nat ∧
    traffic new = paced (k - 1).
Proof. intros Hmax w'. by apply get_counts. Qed.

(** The [RuntimeError] that follows the loop of [_get] is never raised when
    [max_retries] is at least 1, as the constructor ensures. *)
Theorem get_never_raises_runtime_error `{E : Environment} `{P : Python}
    (self : OpenWeatherClient) (path : string) (params : option loc) (w : World)
    (msg : string) :
  1 ≤ max_retries self →
  (_get self path params w).1 ≠ Raise (RuntimeError msg).
Proof.
  intros Hmax.
  destruct (get_prepare self path params w) as (qp & h & -> & _).
  match goal with |- context [_get_loop _ _ _ ?f ?a ?l ?w0] =>
    destruct (get_loop_budget self path qp f a l w0) as (Hrt & _) end; [lia | lia |].
  apply Hrt.
Qed.

(** A client that the constructor returns has a non-empty key, which is
    the key given when that one is not empty and the configured key
    otherwise; it has at least one attempt, whatever [max_retries] it was
    given, and each of its GETs sends between one and [max(1, max_retries)]
    requests. *)
Theorem constructed_client_budget `{E : Environment} `{P : Python}
    (key : option string) (url : string) (timeout_seconds : Q) (retries : Z)
    (backoff : Q) (w0 w0' : World) (c : OpenWeatherClient)
    (path : string) (params : option loc) (w : World) :
  OpenWeatherClient__init__ key url timeout_seconds retries backoff w0 = (Ok c, w0') →
  api_key c ≠ "" ∧ max_retries c = Z.max 1 retries ∧
  (∀ k, key = Some k → k ≠ "" → api_key c = k) ∧
  (key = None ∨ key = Some "" → weather_api_key settings = Some (api_key c)) ∧
  ∃ n : nat, (1 ≤ n)%nat ∧ Z.of_nat n ≤ Z.max 1 retries ∧
             requests (_get c path params w).2 = (requests w + n)%nat.
Proof.
  unfold OpenWeatherClient__init__. intros Hinit.
  destruct (or_string key (weather_api_key settings)) as [k |] eqn:Hor; [| done].
  destruct (String.eqb_spec k "") as [-> | Hk]; [done |].
  inversion Hinit; subst; clear Hinit. simpl.
  split; [done |]. split; [done |]. split; [| split].
  - intros k' Hkey Hk'. subst key. simpl in Hor.
    destruct (k' =? "")%string eqn:Heq; [by apply String.eqb_eq in Heq |].
    by inversion Hor.
  - by intros [-> | ->].
  - match goal with |- context [_get ?c0 _ _ _] =>
      destruct (get_counts c0 path params w)
        as (n & new & Hn1 & Hn2 & Hreq & _) end; [simpl; lia |].
    exists n. simpl in Hn2. by eauto.
Qed.

Lemma get_returns_after_retries_example :
  ∃ w', _get (E:=scripted_env recovering_script) (P:=ExamplePython) example_client
          "/geo/1.0/direct" None empty_world = (Ok (VList []), w') ∧
        requests w' = 3%nat ∧
        sleeps (log w') = [(1 # 2) * 2 ^ (1 - 1); (1 # 2) * 2 ^ (2 - 1)]%Q.
Proof.
  destruct (get_returns_after_retries (E:=scripted_env recovering_script)
              (P:=ExamplePython) example_client "/geo/1.0/direct" None empty_world
              [Responded (response 503 None); Failed ReadTimeout]
              (response 200 (Some (VList []))))
    as (w' & Hrun & Hreq & Hlog & _).
  - simpl. lia.
  - intros i o' Hi. destruct i as [| [| i]]; simpl in Hi; inversion Hi; subst;
      split; reflexivity.
  - reflexivity.
  - simpl. lia.
  - exists w'. split; [exact Hrun |]. split; [exact Hreq |].
    rewrite Hlog. reflexivity.
Defined.

Lemma get_raises_transport_error_example :
  ∃ w', _get (E:=scripted_env []) (P:=ExamplePython) example_client
          "/geo/1.0/direct" None empty_world
          = (Raise (TransportError ConnectError), w') ∧
        requests w' = 3%nat.
Proof.
  destruct (get_raises_transport_error (E:=scripted_env []) (P:=ExamplePython)
              example_client "/geo/1.0/direct" None empty_world
              [Failed ConnectError; Failed ConnectError] ConnectError)
    as (w' & Hrun & Hreq & _).
  - simpl. lia.
  - intros i o' Hi. destruct i as [| [| i]]; simpl in Hi; inversion Hi; subst;
      split; reflexivity.
  - reflexivity.
  - right. reflexivity.
  - exists w'. split; [exact Hrun | exact Hreq].
Defined.

(** A connection timeout is not among the errors the client catches: it is
    raised on the first attempt. *)
Example get_does_not_retry_connect_timeout :
  ∃ w', _get (E:=scripted_env [Failed ConnectTimeout]) (P:=ExamplePython)
          example_client "/geo/1.0/direct" None empty_world
          = (Raise (TransportError ConnectTimeout), w') ∧
        requests w' = 1%nat ∧ sleeps (log w') = [].
Proof. eexists. split; [vm_compute; reflexivity |]. split; reflexivity. Qed.

Lemma get_request_budget_example :
  ∃ (k : nat) (new : list Event),
    (1 ≤ k)%nat ∧ Z.of_nat k ≤ 3 ∧
    requests (_get (E:=scripted_env recovering_script) (P:=ExamplePython)
                example_client "/geo/1.0/direct" None empty_world).2 = k ∧
    log (_get (E:=scripted_env recovering_script) (P:=ExamplePython)
           example_client "/geo/1.0/direct" None empty_world).2 = new ∧
    traffic new = paced (k - 1).
Proof.
  destruct (get_request_budget (E:=scripted_env recovering_script) (P:=ExamplePython)
              example_client "/geo/1.0/direct" None empty_world)
    as (k & new & Hk1 & Hk2 & Hreq & Hlog & _ & _ & Htr); [simpl; lia |].
  exists k, new. repeat split; [exact Hk1 | exact Hk2 | exact Hreq | exact Hlog | exact Htr].
Defined.

(** The run of the example: three requests, a sleep after the first and
    after the second. *)
Example get_traffic_example :
  traffic (log (_get (E:=scripted_env recovering_script) (P:=ExamplePython)
                  example_client "/geo/1.0/direct" None empty_world).2)
  = [Sent; Slept; Sent; Slept; Sent].
Proof. vm_compute. reflexivity. Qed.

Lemma get_never_raises_runtime_error_example :
  (_get (E:=scripted_env []) (P:=ExamplePython) example_client
     "/geo/1.0/direct" None empty_world).1
    ≠ Raise (RuntimeError "OpenWeather request failed without an exception.").
Proof.
  apply (get_never_raises_runtime_error (E:=scripted_env []) (P:=ExamplePython)).
  simpl. lia.
Defined.

Lemma constructed_client_budget_example :
  ∃ c, OpenWeatherClient__init__ (E:=scripted_env []) (Some "mine")
         "https://api.openweathermap.org/" 10 0 (1 # 2) empty_world
         = (Ok c, empty_world) ∧
       api_key c = "mine" ∧ max_retries c = 1 ∧
       requests (_get (E:=scripted_env []) (P:=ExamplePython) c "/geo/1.0/direct"
                   None empty_world).2 = 1%nat.
Proof.
  eassert (Hinit : OpenWeatherClient__init__ (E:=scripted_env []) (Some "mine")
                     "https://api.openweathermap.org/" 10 0 (1 # 2) empty_world
                   = (Ok _, _)) by reflexivity.
  destruct (constructed_client_budget (E:=scripted_env []) (P:=ExamplePython)
              _ _ _ _ _ _ _ _ "/geo/1.0/direct" None empty_world Hinit)
    as (_ & Hmax & Hkey & _ & n & Hn1 & Hn2 & Hreq).
  eexists. split; [reflexivity |]. split; [by apply Hkey |]. split; [exact Hmax |].
  rewrite Hreq. simpl in Hn2 |- *. lia.
Defined.

(** ** The results of the tools *)

Lemma bind_ok_inv {A B} (m : M A) (f : A → M B) (w w' : World) (b : B) :
  (m ≫= f) w = (Ok b, w') → ∃ a w1, m w = (Ok a, w1) ∧ f a w1 = (Ok b, w').
Proof.
  unfold mbind, M_bind. destruct (m w) as [[a | e |] w1]; [by eauto | done | done].
Qed.

Ltac bind_inv H :=
  repeat (let a := fresh "a" in let w1 := fresh "w" in let Ha := fresh "Ha" in
          apply bind_ok_inv in H as (a & w1 & Ha & H)).

Lemma pure_run {A} (m : M A) (w w' : World) (o : Outcome A) :
  pure m → m w = (o, w') → m w = (o, w) ∧ w' = w.
Proof. intros Hp Hm. specialize (Hp w). rewrite Hm in Hp. simpl in Hp. by subst. Qed.

Lemma pure_dict_get v k dflt : pure (dict_get v k dflt).
Proof. intros w. by destruct v. Qed.

Lemma pure_getitem v k : pure (getitem v k).
Proof. intros w. destruct v; try done. simpl. by destruct (assoc k d). Qed.

Lemma pure_subscript0 v : pure (subscript0 v).
Proof. intros w. destruct v as [| | | | [] | [] |]; done. Qed.

Lemma pure_times100 `{P : Python} v : pure (times100 v).
Proof. intros w. by destruct v. Qed.

Lemma pure_entry_time `{E : Environment} entry : pure (entry_time entry).
Proof. intros w. by rewrite entry_time_pure. Qed.

Create HintDb pure.

#[local] Hint Resolve pure_dict_get pure_getitem pure_subscript0 pure_times100
  pure_entry_time : pure.

Section shapes.
Context `{E : Environment} `{P : Python}.



Lemma normalize_entry_spec unit entry (w w' : World) (n : value) :
  normalize_entry unit entry w = (Ok n, w') → w' = w ∧ normalized_from entry n.
Proof.
  unfold normalize_entry. intros H. bind_inv H. inversion H; subst; clear H.
  repeat match goal with
         | H : _ ?w0 = (Ok _, ?w1) |- _ =>
             apply pure_run in H as [H ->]; [| by eauto with pure]
         end.
  split; [done |]. unfold normalized_from. simpl.
  destruct entry as [| | | | | | d]; try done. simpl in *.
  destruct (assoc "dt" d) as [dt |] eqn:Hdt; [| done]. inversion Ha4; subst.
  split; [done |]. split; [by eauto |]. split; [done |].
  unfold_monad. inversion Ha11; subst; clear Ha11.
  destruct (assoc "pop" d) as [[| | z | q | | |] |]; simpl in *; try done;
    by inversion Ha12.
Qed.

(** When the normalisation loop of [get_forecast] completes, it has given
    one result per entry, in order, each with the thirteen keys, the
    timestamp of its entry and its probability of precipitation times 100
    (the exact product for an integer, the product as Python rounds it for
    a float, 0 when absent), and every entry had a ["dt"]: an entry without
    one makes the loop raise. *)
Theorem normalize_all_spec unit (entries : list value) :
  ∀ (w w' : World) (ns : list value),
    normalize_all unit entries w = (Ok ns, w') →
    w' = w ∧ Forall2 normalized_from entries ns.
Proof.
  induction entries as [| entry rest IH]; intros w w' ns H; simpl in H.
  - inversion H. by split.
  - bind_inv H. inversion H; subst; clear H.
    apply normalize_entry_spec in Ha as [-> Hn]. apply IH in Ha0 as [-> Hrest].
    split; [done |]. by constructor.
Qed.

(** [get_forecast] never raises.  Its result always has a list under
    ["entries"]; it has either the time frame asked for and a count equal to
    the length of that list (0 with the error of a failure), or, when the
    provider has no data, the keys ["error"] and ["entries"] only. *)
Theorem get_forecast_shapes (lat lon : value) (timeframe units : string) (w : World) :
  ∃ v w' entries,
    get_forecast lat lon timeframe units w = (Ok v, w') ∧
    field "entries" v = Some (VList entries) ∧
    ((field "timeframe" v = Some (VStr timeframe) ∧
      field "count" v = Some (VInt (Z.of_nat (length entries))) ∧
      (is_Some (field "error" v) → entries = [])) ∨
     (entries = [] ∧ keys v = ["error"; "entries"])).
Proof.
  unfold get_forecast, try_except.
  pose proof (terminates_forecast_body lat lon timeframe units w) as Ht.
  destruct (forecast_body lat lon timeframe units w) as [[v | e |] w'] eqn:Hb;
    simpl in Ht; [| | done].
  - exists v, w'. unfold forecast_body in Hb.
    apply bind_ok_inv in Hb as (raw & w1 & _ & Hb).
    apply bind_ok_inv in Hb as (fl & w2 & _ & Hb).
    destruct (negb (truthy fl)).
    + inversion Hb; subst. exists []. split; [done |]. split; [done |]. by right.
    + apply bind_ok_inv in Hb as (filtered & w3 & _ & Hb).
      apply bind_ok_inv in Hb as (normalized & w4 & _ & Hb).
      inversion Hb; subst. exists normalized. split; [done |]. split; [done |].
      left. split; [done |]. split; [done |]. by intros [? ?].
  - eexists. eexists. exists []. split; [reflexivity |]. split; [done |].
    left. by repeat split.
Qed.
End shapes.

Section current.
Context `{E : Environment} `{P : Python}.

Lemma current_weather_once (c : OpenWeatherClient) (lat lon : value)
    (units lang : string) (w : World) (r : Response) :
  1 ≤ max_retries c →
  let d := weather_query (api_key c) lat lon units lang in
  http (requests w) "/data/2.5/weather" d = Responded r →
  retried_status (status_code r) = false →
  ∃ w', current_weather c lat lon units (Some lang) w = (finish_outcome r, w') ∧
        requests w' = S (requests w).
Proof.
  intros Hmax d Hr Hret. unfold current_weather.
  unfold mbind at 1. unfold M_bind, alloc. simpl.
  set (p := fresh (dom (heap w))).
  set (base := <["units" := VStr units]> (<["lon" := lon]> {["lat" := lat]}) : dict).
  unfold mbind at 1. unfold M_bind, set_lang.
  match goal with |- context [(if (lang =? "")%string then _ else _) ?w0] =>
    assert (∃ w1, (if (lang =? "")%string then mret tt
                   else setitem p "lang" (VStr lang)) w0 = (Ok tt, w1) ∧
                  requests w1 = requests w ∧
                  with_appid c (params_dict (Some p) w1) = d) as (w1 & -> & Hq1 & Hd)
  end.
  { unfold d, weather_query. fold base.
    destruct (lang =? "")%string; eexists; (split; [reflexivity |]); simpl;
      (split; [done |]).
    - by rewrite lookup_insert_eq.
    - by rewrite alter_insert_eq, lookup_insert_eq. }
  destruct (get_script c "/data/2.5/weather" (Some p) w1 [] r)
    as (w' & Hrun & Hreq & _).
  - simpl. lia.
  - intros i r' Hi. done.
  - rewrite Hd, Hq1, Nat.add_0_r. exact Hr.
  - by left.
  - exists w'. rewrite Hrun. split; [done |]. simpl in *. rewrite Hreq, Hq1. lia.
Qed.

(** When the provider answers the request for the current weather with a
    2xx status and a JSON object, [get_current_weather] returns the twelve
    fields: each value is the field of the provider, or null when the field
    or the object that holds it is absent; the condition defaults to
    "Unknown" and the description to the empty string; the unit suffixes
    follow [units]. *)
Theorem get_current_weather_normalizes (lat lon : value) (units key : string)
    (w : World) (r : Response) (raw weather : list (string * value)) :
  weather_api_key settings = Some key → key ≠ "" →
  http (requests w) "/data/2.5/weather"
       (weather_query key lat lon units (default_lang settings)) = Responded r →
  200 ≤ status_code r ≤ 299 →
  json r = Some (VDict raw) →
  object_or_absent (assoc "main" raw) →
  object_or_absent (assoc "wind" raw) →
  object_or_absent (assoc "clouds" raw) →
  first_weather raw = Some weather →
  (∃ w', get_current_weather lat lon units w =
    (Ok (VDict
       [("temp", get_or_null (assoc "main" raw) "temp");
        ("temp_unit", VStr (temp_unit_of units));
        ("feels_like", get_or_null (assoc "main" raw) "feels_like");
        ("condition", default (VStr "Unknown") (assoc "main" weather));
        ("description", default (VStr "") (assoc "description" weather));
        ("wind_speed", get_or_null (assoc "wind" raw) "speed");
        ("wind_unit", VStr (wind_unit_of units));
        ("wind_deg", get_or_null (assoc "wind" raw) "deg");
        ("humidity", get_or_null (assoc "main" raw) "humidity");
        ("clouds", get_or_null (assoc "clouds" raw) "all");
        ("pressure", get_or_null (assoc "main" raw) "pressure");
        ("visibility", default VNone (assoc "visibility" raw))]), w')) ∧
  (temp_unit_of units, wind_unit_of units) =
    (if decide (units = "metric") then ("°C", "m/s")
     else if decide (units = "imperial") then ("°F", "mph")
     else ("K", "m/s")).
Proof.
  intros Hkey Hne Hr Hst Hjson Hmain Hwind Hclouds Hweather. split; cycle 1.
  { unfold temp_unit_of, wind_unit_of.
    destruct (String.eqb_spec units "metric"); [by rewrite decide_True |].
    rewrite decide_False by done.
    destruct (String.eqb_spec units "imperial"); [by rewrite decide_True |].
    by rewrite decide_False. }
  set (c := {| api_key := key; base_url := "https://api.openweathermap.org";
               max_retries := 3; backoff_factor := 1 # 2 |}).
  set (w0 := {| heap := heap w; requests := requests w; queries := queries w;
                log := log w ++ [EvStdout (OutLat lat)] |}).
  destruct (current_weather_once c lat lon units (default_lang settings) w0 r)
    as (w1 & Hcw & _); [done | done | unfold retried_status; lia |].
  assert (Hfin : finish_outcome r = Ok (VDict raw)).
  { unfold finish_outcome. rewrite Hjson.
    assert (is_success (status_code r) = true) as ->; [| done].
    unfold is_success. lia. }
  rewrite Hfin in Hcw.
  unfold get_current_weather, print.
  unfold mbind at 1. unfold M_bind at 1. simpl. fold w0.
  unfold try_except, current_weather_body.
  unfold mbind at 1. unfold M_bind at 1. unfold with_client.
  unfold mbind at 1. unfold M_bind at 1.
  rewrite (new_client_configured key w0 Hkey Hne). fold c.
  unfold try_finally. rewrite Hcw. simpl.
  unfold first_weather in Hweather. unfold dict_get, subscript0. unfold_monad. simpl.
  destruct (assoc "main" raw) as [[| | | | | | dm] |]; try done;
    destruct (assoc "wind" raw) as [[| | | | | | dw] |]; try done;
    destruct (assoc "clouds" raw) as [[| | | | | | dc] |]; try done;
    destruct (assoc "weather" raw) as [[| | | | | [| [| | | | | | wd] ?] |] |];
    try done; inversion Hweather; subst; simpl; eexists; reflexivity.
Qed.
End current.

(** ** The time frames of the forecast *)

Lemma midnight_spec (t : Z) : midnight t ≤ t < midnight t + usec_per_day.
Proof.
  unfold midnight, usec_per_day, usec_per_hour, usec_per_second.
  Z.div_mod_to_equations. lia.
Qed.

Lemma midnight_add_days (t k : Z) :
  midnight (t + k * usec_per_day) = midnight t + k * usec_per_day.
Proof.
  unfold midnight. rewrite Z.div_add by done. lia.
Qed.

Lemma midnight_next_day (t : Z) :
  midnight (t + usec_per_day) = midnight t + usec_per_day.
Proof.
  pose proof (midnight_add_days t 1) as H. by rewrite Z.mul_1_l in H.
Qed.

Lemma at_hour_midnight (t h : Z) : at_hour t h = midnight t + h * usec_per_hour.
Proof. reflexivity. Qed.

Lemma hour_of_spec (t h : Z) :
  h ≤ hour_of t ↔ midnight t + h * usec_per_hour ≤ t.
Proof.
  unfold hour_of, midnight, usec_per_day, usec_per_hour, usec_per_second.
  Z.div_mod_to_equations. lia.
Qed.

Section windows.
Context `{E : Environment}.

Lemma select_kept (keep : Z → bool) (items : list value) (w : World) :
  (∀ entry, entry ∈ items → ∃ t, time_of entry = Ok t) →
  select keep (VList items) w = (Ok (List.filter (kept_by keep) items), w).
Proof.
  intros Hok. unfold select, iterate. unfold_monad.
  by rewrite select_items_filter.
Qed.

Lemma elem_of_kept (keep : Z → bool) (items : list value) (entry : value) :
  entry ∈ List.filter (kept_by keep) items ↔
  entry ∈ items ∧ ∃ t, time_of entry = Ok t ∧ keep t = true.
Proof.
  rewrite list_elem_of_In, filter_In, <- list_elem_of_In. unfold kept_by. split.
  - intros [Hin Hk]. split; [done |].
    destruct (time_of entry) as [t | |]; [by eauto | done | done].
  - intros [Hin (t & -> & Hk)]. by split.
Qed.

(** The time frame "tomorrow" keeps exactly the entries dated in the 24
    hours that start at the next midnight, the end excluded; that midnight is
    after now and at most 24 hours away. *)
Theorem tomorrow_filter (now : Z) (items : list value) (w : World) :
  datetime_min ≤ now → now + 2 * usec_per_day ≤ datetime_max →
  (∀ entry, entry ∈ items → ∃ t, time_of entry = Ok t) →
  let start := midnight now + usec_per_day in
  let kept := List.filter
                (kept_by (λ t, (start <=? t) && (t <? start + usec_per_day))) items in
  filter_entries "tomorrow" now (VList items) w = (Ok kept, w) ∧
  now < start ≤ now + usec_per_day ∧
  ∀ entry, entry ∈ kept ↔
           entry ∈ items ∧
           ∃ t, time_of entry = Ok t ∧ start ≤ t < start + usec_per_day.
Proof.
  intros Hmin Hmax Hok start kept.
  pose proof (midnight_spec now) as Hm.
  assert (Hday : 0 < usec_per_day) by done.
  split; [| split; [unfold start; lia |]].
  - unfold filter_entries. simpl. unfold dt_add.
    assert (in_range (now + usec_per_day) = true) as -> by (unfold in_range; lia).
    unfold mbind at 1. unfold M_bind at 1. simpl.
    rewrite at_hour_midnight.
    rewrite midnight_next_day.
    rewrite Z.mul_0_l, Z.add_0_r. fold start.
    assert (in_range (start + usec_per_day) = true) as ->
      by (unfold in_range, start; lia).
    unfold mbind at 1. unfold M_bind at 1. simpl.
    by rewrite select_kept.
  - intros entry. unfold kept. rewrite elem_of_kept.
    split; intros [Hin (t & Ht & Hk)]; (split; [done |]); exists t; (split; [done |]); lia.
Qed.

(** The time frame "tonight" keeps exactly the entries dated from 18:00
    today, or from now when it is 18:00 or later, to 06:00 of the next day,
    both ends included.  The window never starts before now and lasts 12
    hours at most. *)
Theorem tonight_filter (now : Z) (items : list value) (w : World) :
  datetime_min ≤ now → now + usec_per_day ≤ datetime_max →
  (∀ entry, entry ∈ items → ∃ t, time_of entry = Ok t) →
  let start := if 18 <=? hour_of now then now
               else midnight now + 18 * usec_per_hour in
  let stop := midnight now + usec_per_day + 6 * usec_per_hour in
  let kept := List.filter (kept_by (λ t, (start <=? t) && (t <=? stop))) items in
  filter_entries "tonight" now (VList items) w = (Ok kept, w) ∧
  now ≤ start ∧ start < stop ≤ start + 12 * usec_per_hour ∧
  ∀ entry, entry ∈ kept ↔
           entry ∈ items ∧ ∃ t, time_of entry = Ok t ∧ start ≤ t ≤ stop.
Proof.
  intros Hmin Hmax Hok start stop kept.
  pose proof (midnight_spec now) as Hm.
  pose proof (hour_of_spec now 18) as Hh.
  assert (Hday : usec_per_day = 24 * usec_per_hour) by done.
  assert (Hhour : 0 < usec_per_hour) by done.
  split; [| split; [| split]].
  - unfold filter_entries. simpl. unfold dt_add.
    assert (in_range (now + usec_per_day) = true) as -> by (unfold in_range; lia).
    unfold mbind at 1. unfold M_bind at 1. simpl.
    rewrite !at_hour_midnight.
    rewrite midnight_next_day.
    fold stop. fold start. by rewrite select_kept.
  - unfold start. destruct (18 <=? hour_of now) eqn:H18; lia.
  - unfold start, stop. destruct (18 <=? hour_of now) eqn:H18; lia.
  - intros entry. unfold kept. rewrite elem_of_kept.
    split; intros [Hin (t & Ht & Hk)]; (split; [done |]); exists t; (split; [done |]); lia.
Qed.
End windows.

Lemma weekday_range (t : Z) : 0 ≤ weekday t < 7.
Proof. unfold weekday. apply Z.mod_pos_bound. lia. Qed.

Lemma weekday_midnight_add_days (t k : Z) :
  weekday (midnight t + k * usec_per_day) = (weekday t + k) mod 7.
Proof.
  unfold weekday, midnight. rewrite <- Z.mul_add_distr_r, Z.div_mul by done.
  rewrite Zplus_mod_idemp_l. f_equal. lia.
Qed.

Lemma hour_of_midnight_add_days (t k : Z) :
  hour_of (midnight t + k * usec_per_day) = 0.
Proof.
  unfold hour_of, midnight. rewrite <- Z.mul_add_distr_r, Z.mod_mul by done.
  done.
Qed.

Lemma days_until_saturday_spec (now : Z) :
  0 ≤ days_until_saturday now ≤ 7 ∧
  (weekday now + days_until_saturday now) mod 7 = 5 ∧
  (days_until_saturday now = 0 ↔ weekday now = 5 ∧ hour_of now < 12).
Proof.
  unfold days_until_saturday. pose proof (weekday_range now) as Hw.
  assert (Hk : 0 ≤ (5 - weekday now) mod 7 < 7) by (apply Z.mod_pos_bound; lia).
  assert (Hsum : (weekday now + (5 - weekday now) mod 7) mod 7 = 5).
  { rewrite Zplus_mod_idemp_r. replace (weekday now + (5 - weekday now)) with 5 by lia.
    done. }
  assert (Hzero : (5 - weekday now) mod 7 = 0 ↔ weekday now = 5).
  { split; intros H0.
    - rewrite H0, Z.add_0_r, Z.mod_small in Hsum by lia. done.
    - by rewrite H0. }
  destruct ((5 - weekday now) mod 7 =? 0) eqn:Hz; simpl.
  - apply Z.eqb_eq in Hz. pose proof (proj1 Hzero Hz) as H5.
    destruct (12 <=? hour_of now) eqn:H12.
    + split; [lia |]. split; [by rewrite H5 |]. lia.
    + split; [lia |]. split; [by rewrite Hz, Z.add_0_r, H5 |]. lia.
  - apply Z.eqb_neq in Hz. split; [lia |]. split; [done |].
    split; [done |]. intros [H5 _]. by apply Hzero in H5.
Qed.

Section weekend.
Context `{E : Environment}.

(** The time frame "weekend" keeps exactly the entries dated in the 48
    hours that start on a Saturday at 00:00: the Saturday of today or the
    next one, and the one a week later from Saturday noon on.  The window has
    started already only on a Saturday before noon. *)
Theorem weekend_filter (now : Z) (items : list value) (w : World) :
  datetime_min ≤ now → now + 9 * usec_per_day ≤ datetime_max →
  (∀ entry, entry ∈ items → ∃ t, time_of entry = Ok t) →
  let start := midnight now + days_until_saturday now * usec_per_day in
  let kept := List.filter
                (kept_by (λ t, (start <=? t) && (t <? start + 2 * usec_per_day)))
                items in
  filter_entries "weekend" now (VList items) w = (Ok kept, w) ∧
  weekday start = 5 ∧ hour_of start = 0 ∧
  start ≤ now + 7 * usec_per_day ∧
  (start ≤ now ↔ weekday now = 5 ∧ hour_of now < 12) ∧
  ∀ entry, entry ∈ kept ↔
           entry ∈ items ∧
           ∃ t, time_of entry = Ok t ∧ start ≤ t < start + 2 * usec_per_day.
Proof.
  intros Hmin Hmax Hok start kept.
  pose proof (midnight_spec now) as Hm.
  destruct (days_until_saturday_spec now) as (Hk & Hsat & Hzero).
  assert (Hday : 0 < usec_per_day) by done.
  assert (Hstart : midnight now ≤ start ≤ midnight now + 7 * usec_per_day)
    by (unfold start; nia).
  split; [| split; [| split; [| split; [| split]]]].
  - unfold filter_entries. simpl. fold (days_until_saturday now). unfold dt_add.
    assert (in_range (now + days_until_saturday now * usec_per_day) = true) as ->
      by (unfold in_range; nia).
    unfold mbind at 1. unfold M_bind at 1. simpl.
    rewrite at_hour_midnight, midnight_add_days, Z.mul_0_l, Z.add_0_r. fold start.
    assert (in_range (start + 2 * usec_per_day) = true) as ->
      by (unfold in_range; lia).
    unfold mbind at 1. unfold M_bind at 1. simpl.
    by rewrite select_kept.
  - unfold start. by rewrite weekday_midnight_add_days.
  - unfold start. apply hour_of_midnight_add_days.
  - lia.
  - rewrite <- Hzero. unfold start. split; [nia | intros ->; lia].
  - intros entry. unfold kept. rewrite elem_of_kept.
    split; intros [Hin (t & Ht & Hk')]; (split; [done |]); exists t; (split; [done |]); lia.
Qed.
End weekend.

(** ** The registry and the loop of the agent *)

(** The dictionary of the tools maps a name to the last tool of the list
    that has this name. *)
Theorem make_tool_map_lookup (tools : list BaseTool) (n : string) :
  make_tool_map tools !! n =
    last (List.filter (λ tool, bool_decide (name tool = n)) tools).
Proof.
  unfold make_tool_map. induction tools as [| tool tools IH] using rev_ind; [done |].
  rewrite foldl_app, List.filter_app. simpl.
  destruct (decide (name tool = n)) as [Heq | Hne].
  - rewrite bool_decide_eq_true_2 by done. rewrite last_snoc.
    rewrite Heq. apply lookup_insert_eq.
  - rewrite bool_decide_eq_false_2 by done. rewrite app_nil_r.
    by rewrite lookup_insert_ne.
Qed.

(** The agent registers its two tools under their names and nothing else,
    and the table of the guidance prompts has exactly the same names: the
    forecast tool is in neither. *)
Theorem agent_registry `{E : Environment} `{P : Python} (n : string) :
  (is_Some (tool_map WeatherAgent__init__ !! n) ↔
   n = "city_to_coords" ∨ n = "get_current_weather") ∧
  (is_Some (tool_map WeatherAgent__init__ !! n) ↔ is_Some (TOOL_SYSTEM_PROMPTS !! n)) ∧
  (∀ tool, tool_map WeatherAgent__init__ !! n = Some tool → name tool = n).
Proof.
  assert (Hreg : ∀ tool, tool_map WeatherAgent__init__ !! n = Some tool ↔
                         (n = "get_current_weather" ∧ tool = get_current_weather_tool) ∨
                         (n = "city_to_coords" ∧ tool = city_to_coords_tool)).
  { intros tool. unfold WeatherAgent__init__, make_tool_map. simpl.
    rewrite lookup_insert_Some, lookup_insert_Some, lookup_empty. simpl.
    split.
    - intros [[<- <-] | [? [[<- <-] | [_ ?]]]]; by eauto.
    - intros [[-> ->] | [-> ->]]; [by left | right]. split; [done |]. by left. }
  assert (Hprompt : is_Some (TOOL_SYSTEM_PROMPTS !! n) ↔
                    n = "city_to_coords" ∨ n = "get_current_weather").
  { unfold TOOL_SYSTEM_PROMPTS. unfold is_Some.
    setoid_rewrite lookup_insert_Some. setoid_rewrite lookup_singleton_Some.
    split.
    - intros [x [[<- _] | [_ [<- _]]]]; by eauto.
    - intros [-> | ->]; eexists; [right | left]; by eauto. }
  assert (Hnames : is_Some (tool_map WeatherAgent__init__ !! n) ↔
                   n = "city_to_coords" ∨ n = "get_current_weather").
  { split.
    - intros [tool Ht]. apply Hreg in Ht as [[-> _] | [-> _]]; by eauto.
    - intros [-> | ->]; eexists; apply Hreg; by eauto. }
  split; [exact Hnames |]. split; [by rewrite Hnames, Hprompt |].
  intros tool Ht. apply Hreg in Ht as [[-> ->] | [-> ->]]; done.
Qed.

Section loop.
Context `{E : Environment} `{P : Python}.
Variable self : WeatherAgent.

Lemma run_tool_calls_returns (calls : list ToolCall) :
  Forall (handled self) calls →
  ∀ messages w, ∃ messages' w', run_tool_calls self calls messages w = (Ok messages', w').
Proof.
  induction 1 as [| c calls Hc _ IH]; intros messages w; simpl; [by eauto |].
  unfold mbind at 1. unfold M_bind at 1. unfold handle_tool_call.
  destruct (tool_map self !! tc_name c) as [tool |] eqn:Hl; [| apply IH].
  unfold_monad. simpl.
  match goal with |- context [ainvoke tool (tc_args c) ?w0] =>
    destruct (Hc tool w0 Hl) as (v & w1 & ->) end.
  simpl. apply IH.
Qed.

(** The loop has no bound on its turns: as long as the model answers with
    tool calls that the loop can handle, no number of iterations makes
    [invoke] return. *)
Theorem invoke_has_no_turn_cap (message : string) (fuel : nat) (w : World) :
  (∀ n messages, ∃ r, llm n messages = Ok r ∧ tool_calls r ≠ [] ∧
                      Forall (handled self) (tool_calls r)) →
  (invoke self message fuel w).1 = OutOfFuel.
Proof.
  intros Hllm. unfold invoke.
  generalize zero_usage.
  generalize [SystemMessage (system_prompt self); HumanMessage message].
  revert w. induction fuel as [| fuel IH]; intros w messages tally; [done |].
  simpl. unfold mbind at 1. unfold M_bind at 1.
  unfold turn. unfold mbind at 1. unfold M_bind at 1. unfold ask_model. simpl.
  destruct (Hllm (queries w) messages) as (r & -> & Hne & Hall).
  unfold mbind at 1. unfold M_bind at 1. unfold print, emit. simpl.
  destruct (tool_calls r) as [| c calls] eqn:Hcalls; [done |].
  change (handle_tool_call self c ?ms ≫= (λ m, run_tool_calls self calls m))
    with (run_tool_calls self (c :: calls) ms).
  unfold mbind at 1. unfold M_bind at 1.
  match goal with |- context [run_tool_calls self ?cs ?ms ?w0] =>
    destruct (run_tool_calls_returns cs Hall ms w0) as (ms' & w1 & Hrun) end.
  rewrite Hrun. simpl. apply IH.
Qed.

(** What [invoke] returns is an answer of the model without tool calls,
    and the run ends with that answer and the print of the tally. *)
Theorem invoke_returns_final_answer (message : string) (fuel : nat) (w w' : World)
    (r : AIMessage) :
  invoke self message fuel w = (Ok r, w') →
  tool_calls r = [] ∧
  ∃ earlier messages tally,
    log w' = earlier ++ [EvModel messages (Ok r); EvStdout (OutToolCalls []);
                         EvStdout (OutUsage tally)].
Proof.
  unfold invoke. generalize zero_usage.
  generalize [SystemMessage (system_prompt self); HumanMessage message].
  revert w. induction fuel as [| fuel IH]; intros w messages tally Hrun; [done |].
  simpl in Hrun. unfold mbind at 1 in Hrun. unfold M_bind at 1 in Hrun.
  unfold turn in Hrun. unfold mbind at 1 in Hrun. unfold M_bind at 1 in Hrun.
  unfold ask_model in Hrun. simpl in Hrun.
  destruct (llm (queries w) messages) as [response | e |] eqn:Hllm; [| done | done].
  unfold mbind at 1 in Hrun. unfold M_bind at 1, print, emit in Hrun. simpl in Hrun.
  destruct (tool_calls response) as [| c calls] eqn:Hcalls.
  - unfold_monad. simpl in Hrun. inversion Hrun; subst. split; [done |].
    exists (log w). eexists _, _. simpl. rewrite <- !app_assoc. reflexivity.
  - change (handle_tool_call self c ?ms ≫= (λ m, run_tool_calls self calls m))
      with (run_tool_calls self (c :: calls) ms) in Hrun.
    unfold mbind at 1 in Hrun. unfold M_bind at 1 in Hrun.
    destruct (run_tool_calls self (c :: calls) _ _) as [[ms' | e |] w1];
      [| done | done].
    unfold_monad. simpl in Hrun. exact (IH _ _ _ Hrun).
Qed.

(** The loop does not catch what a tool raises: the exception of the first
    tool that raises ends [invoke], no later call is handled and the model
    is not queried again. *)
Theorem invoke_propagates_tool_exception (message : string) (fuel : nat)
    (messages : list Message) (tally : Usage) (w w' : World) (r : AIMessage)
    (c : ToolCall) (rest : list ToolCall) (tool : BaseTool) (e : exn) :
  llm (queries w) messages = Ok r →
  tool_calls r = c :: rest →
  tool_map self !! tc_name c = Some tool →
  ainvoke tool (tc_args c)
    {| heap := heap w; requests := requests w; queries := S (queries w);
       log := log w ++ [EvModel messages (Ok r); EvStdout (OutToolCalls (c :: rest));
                        EvTool (tc_name c) (tc_args c)] |} = (Raise e, w') →
  invoke_loop self message (S fuel) messages tally w = (Raise e, w').
Proof.
  intros Hllm Hcalls Htool Hraise. simpl.
  unfold mbind at 1. unfold M_bind at 1.
  unfold turn. unfold mbind at 1. unfold M_bind at 1. unfold ask_model. simpl.
  rewrite Hllm.
  unfold mbind at 1. unfold M_bind at 1. unfold print, emit. simpl.
  rewrite Hcalls.
  change (handle_tool_call self c ?ms ≫= (λ m, run_tool_calls self rest m))
    with (run_tool_calls self (c :: rest) ms).
  unfold mbind at 1. unfold M_bind at 1. simpl.
  unfold mbind at 1. unfold M_bind at 1. unfold handle_tool_call. rewrite Htool.
  unfold mbind at 1. unfold M_bind at 1. unfold emit. simpl.
  unfold mbind at 1. unfold M_bind at 1. rewrite <- !app_assoc. simpl.
  by rewrite Hraise.
Qed.
End loop.

(** ** The endpoints *)

Section endpoints.
Context `{E : Environment} `{P : Python}.
Variable text : Response → string.

Lemma proxy_final (call : M value) (w w' : World) (o : HttpOutcome) :
  call w = (final_outcome o, w') → proxy text call w = (reply_of text o, w').
Proof.
  intros Hcall. unfold proxy, try_except. unfold mbind at 1. unfold M_bind at 1.
  rewrite Hcall. destruct o as [r | e]; simpl; [| done].
  unfold finish_outcome. destruct (is_success (status_code r)); [| done].
  by destruct (json r).
Qed.

(** A GET made with parameters built on the spot. *)
Lemma get_with_params (c : OpenWeatherClient) (path : string) (d0 : dict)
    (lang : option string) (w : World) (os : list HttpOutcome) (o : HttpOutcome) :
  Z.of_nat (length os) < max_retries c →
  (∀ i o' d, os !! i = Some o' →
             http (requests w + i)%nat path d = o' ∧ retried o' = true) →
  (∀ d, http (requests w + length os)%nat path d = o) →
  retried o = false ∨ Z.of_nat (length os) + 1 = max_retries c →
  ∃ w', (params ← alloc d0; set_lang params lang;; _get c path (Some params)) w
          = (final_outcome o, w') ∧
        requests w' = (requests w + length os + 1)%nat.
Proof.
  intros Hlen Hos Ho Hstop.
  unfold mbind at 1. unfold M_bind at 1. unfold alloc. simpl.
  set (p := fresh (dom (heap w))).
  unfold mbind at 1. unfold M_bind at 1.
  match goal with |- context [set_lang p lang ?w0] =>
    assert (∃ w1, set_lang p lang w0 = (Ok tt, w1) ∧ requests w1 = requests w)
      as (w1 & -> & Hq) end.
  { unfold set_lang. destruct lang as [l |]; [| by eauto].
    destruct (l =? "")%string; by eauto. }
  destruct (get_outcomes c path (Some p) w1 os o) as (w' & Hrun & Hreq & _).
  - done.
  - intros i o' Hi. rewrite Hq. by apply Hos.
  - rewrite Hq. apply Ho.
  - done.
  - exists w'. split; [done |]. by rewrite Hreq, Hq.
Qed.

(** The endpoint of the geocoding answers what the answer that decides the
    GET says: the JSON of a 2xx, an [HTTPException] with the status and the
    text of the response for any other status (after the retries for a 429 or
    a 5xx), a 502 for a transport error.  Without a client it answers 500. *)
Theorem geocode_reply (c : OpenWeatherClient) (q : string) (limit : Z)
    (lang : option string) (w : World) (os : list HttpOutcome) (o : HttpOutcome) :
  Z.of_nat (length os) < max_retries c →
  (∀ i o' d, os !! i = Some o' →
             http (requests w + i)%nat "/geo/1.0/direct" d = o' ∧ retried o' = true) →
  (∀ d, http (requests w + length os)%nat "/geo/1.0/direct" d = o) →
  retried o = false ∨ Z.of_nat (length os) + 1 = max_retries c →
  (∃ w', geocode text (Some c) q limit lang w = (reply_of text o, w') ∧
         requests w' = (requests w + length os + 1)%nat) ∧
  geocode text None q limit lang w =
    (Ok (HTTPException 500 "OpenWeather API key not configured."), w).
Proof.
  intros Hlen Hos Ho Hstop. split; [| done].
  destruct (get_with_params c "/geo/1.0/direct"
              (<["limit" := VInt limit]> {["q" := VStr q]}) lang w os o)
    as (w' & Hrun & Hreq); [done | done | done | done |].
  exists w'. split; [| done]. by apply proxy_final.
Qed.

(** The endpoint of the current weather answers what the answer that
    decides the GET says: the JSON of a 2xx, an [HTTPException] with the
    status and the text of the response for any other status (after the
    retries for a 429 or a 5xx), a 502 for a transport error.  Without a
    client it answers 500 and sends no request. *)
Theorem current_weather_reply (c : OpenWeatherClient) (lat lon : value)
    (units : string) (lang : option string) (w : World) (os : list HttpOutcome)
    (o : HttpOutcome) :
  Z.of_nat (length os) < max_retries c →
  (∀ i o' d, os !! i = Some o' →
             http (requests w + i)%nat "/data/2.5/weather" d = o' ∧ retried o' = true) →
  (∀ d, http (requests w + length os)%nat "/data/2.5/weather" d = o) →
  retried o = false ∨ Z.of_nat (length os) + 1 = max_retries c →
  (∃ w', current_weather_endpoint text (Some c) lat lon units lang w
           = (reply_of text o, w') ∧
         requests w' = (requests w + length os + 1)%nat) ∧
  current_weather_endpoint text None lat lon units lang w =
    (Ok (HTTPException 500 "OpenWeather API key not configured."), w).
Proof.
  intros Hlen Hos Ho Hstop. split; [| done].
  destruct (get_with_params c "/data/2.5/weather"
              (<["units" := VStr units]> (<["lon" := lon]> {["lat" := lat]}))
              lang w os o)
    as (w' & Hrun & Hreq); [done | done | done | done |].
  exists w'. split; [| done]. by apply proxy_final.
Qed.

End endpoints.

(** ** Examples of the further properties *)

Lemma normalize_all_spec_example :
  ∃ ns, normalize_all (E:=forecast_env) (P:=ExamplePython) "°C"
          [soon_entry; far_entry] empty_world = (Ok ns, empty_world) ∧
        Forall2 (normalized_from (P:=ExamplePython)) [soon_entry; far_entry] ns.
Proof.
  eassert (Hrun : normalize_all (E:=forecast_env) (P:=ExamplePython) "°C"
                    [soon_entry; far_entry] empty_world = (Ok _, _))
    by (vm_compute; reflexivity).
  destruct (normalize_all_spec (E:=forecast_env) (P:=ExamplePython) _ _ _ _ _ Hrun)
    as [_ Hall].
  eexists. split; [exact Hrun | exact Hall].
Defined.

Lemma get_current_weather_normalizes_example :
  (get_current_weather (E:=weather_env) (P:=ExamplePython)
     (VFloat (4885 # 100)) (VFloat (235 # 100)) "imperial" empty_world).1 =
    Ok (VDict [("temp", VFloat (59 # 1)); ("temp_unit", VStr "°F");
               ("feels_like", VNone); ("condition", VStr "Clouds");
               ("description", VStr ""); ("wind_speed", VNone);
               ("wind_unit", VStr "mph"); ("wind_deg", VNone);
               ("humidity", VNone); ("clouds", VNone); ("pressure", VNone);
               ("visibility", VNone)]).
Proof.
  destruct (get_current_weather_normalizes (E:=weather_env) (P:=ExamplePython)
              (VFloat (4885 # 100)) (VFloat (235 # 100)) "imperial" "secret"
              empty_world (response 200 (Some (VDict sample_weather)))
              sample_weather [("main", VStr "Clouds")])
    as [[w' Hrun] _];
    [reflexivity | done | reflexivity | simpl; lia | reflexivity
    | exact I | exact I | exact I | reflexivity |].
  rewrite Hrun. reflexivity.
Defined.

Lemma tomorrow_filter_example :
  filter_entries (E:=forecast_env) "tomorrow" (20000 * usec_per_day)
    (VList [soon_entry; tomorrow_entry; far_entry]) empty_world
    = (Ok [tomorrow_entry], empty_world).
Proof.
  destruct (tomorrow_filter (E:=forecast_env) (20000 * usec_per_day)
              [soon_entry; tomorrow_entry; far_entry] empty_world) as [Hrun _].
  - vm_compute. discriminate.
  - vm_compute. discriminate.
  - intros entry Hin. apply list_elem_of_In in Hin.
    destruct Hin as [<- | [<- | [<- | []]]]; by eexists.
  - rewrite Hrun. reflexivity.
Defined.

Lemma tonight_filter_example :
  filter_entries (E:=forecast_env) "tonight" (20000 * usec_per_day)
    (VList [soon_entry; tomorrow_entry; far_entry]) empty_world
    = (Ok [tomorrow_entry], empty_world).
Proof.
  destruct (tonight_filter (E:=forecast_env) (20000 * usec_per_day)
              [soon_entry; tomorrow_entry; far_entry] empty_world) as [Hrun _].
  - vm_compute. discriminate.
  - vm_compute. discriminate.
  - intros entry Hin. apply list_elem_of_In in Hin.
    destruct Hin as [<- | [<- | [<- | []]]]; by eexists.
  - rewrite Hrun. reflexivity.
Defined.

Lemma weekend_filter_example :
  filter_entries (E:=forecast_env) "weekend" (20000 * usec_per_day)
    (VList [soon_entry; tomorrow_entry; far_entry]) empty_world
    = (Ok [tomorrow_entry], empty_world) ∧
  weekday (20000 * usec_per_day) = 4.
Proof.
  destruct (weekend_filter (E:=forecast_env) (20000 * usec_per_day)
              [soon_entry; tomorrow_entry; far_entry] empty_world) as [Hrun _].
  - vm_compute. discriminate.
  - vm_compute. discriminate.
  - intros entry Hin. apply list_elem_of_In in Hin.
    destruct Hin as [<- | [<- | [<- | []]]]; by eexists.
  - rewrite Hrun. split; reflexivity.
Defined.

Lemma invoke_has_no_turn_cap_example :
  (invoke (E:=insisting_env) (P:=ExamplePython)
     (WeatherAgent__init__ (E:=insisting_env) (P:=ExamplePython))
     "Will it rain in Paris tomorrow?" 100 empty_world).1 = OutOfFuel.
Proof.
  apply (invoke_has_no_turn_cap (E:=insisting_env) (P:=ExamplePython)).
  intros n messages. exists (asks [call_forecast]). split; [reflexivity |].
  split; [done |]. constructor; [| constructor].
  intros tool w Hl. exfalso. revert Hl.
  unfold WeatherAgent__init__, make_tool_map. simpl.
  rewrite lookup_insert_ne by done. rewrite lookup_insert_ne by done.
  by rewrite lookup_empty.
Defined.

Lemma invoke_returns_final_answer_example :
  ∃ r w', invoke (E:=agent_env [asks [call_locate]; final_answer]) (P:=ExamplePython)
            (example_agent [asks [call_locate]; final_answer]) "Weather in Paris?" 2
            empty_world = (Ok r, w') ∧
          r = final_answer ∧ tool_calls r = [].
Proof.
  eassert (Hrun : invoke (E:=agent_env [asks [call_locate]; final_answer])
                    (P:=ExamplePython)
                    (example_agent [asks [call_locate]; final_answer])
                    "Weather in Paris?" 2 empty_world = (Ok _, _))
    by (vm_compute; reflexivity).
  destruct (invoke_returns_final_answer
              (E:=agent_env [asks [call_locate]; final_answer]) (P:=ExamplePython)
              _ _ _ _ _ _ Hrun) as [Hcalls _].
  eexists _, _. split; [exact Hrun |]. split; [reflexivity | exact Hcalls].
Defined.

Lemma invoke_propagates_tool_exception_example :
  (invoke (E:=refused_env) (P:=ExamplePython)
     (WeatherAgent__init__ (E:=refused_env) (P:=ExamplePython))
     "Weather in Paris?" 3 empty_world).1
    = Raise (HTTPStatusError (response 401 None)).
Proof.
  unfold invoke.
  set (messages := [SystemMessage
                      (system_prompt (WeatherAgent__init__ (E:=refused_env)
                                        (P:=ExamplePython)));
                    HumanMessage "Weather in Paris?"]).
  eassert (Hraise : ainvoke (city_to_coords_tool (E:=refused_env) (P:=ExamplePython))
                      (tc_args call_locate)
                      {| heap := heap empty_world; requests := requests empty_world;
                         queries := S (queries empty_world);
                         log := log empty_world
                                  ++ [EvModel messages (Ok (asks [call_locate]));
                                      EvStdout (OutToolCalls [call_locate]);
                                      EvTool (tc_name call_locate) (tc_args call_locate)] |}
                    = (Raise (HTTPStatusError (response 401 None)), _))
    by (vm_compute; reflexivity).
  erewrite (invoke_propagates_tool_exception (E:=refused_env) (P:=ExamplePython)
              _ "Weather in Paris?" 2 messages zero_usage empty_world _
              (asks [call_locate]) call_locate []
              (city_to_coords_tool (E:=refused_env) (P:=ExamplePython)));
    [reflexivity | reflexivity | reflexivity | | exact Hraise].
  unfold WeatherAgent__init__, make_tool_map. simpl.
  rewrite lookup_insert_ne by done. apply lookup_insert_eq.
Defined.

Lemma invoke_prints_total_usage_example :
  ∃ r w', invoke (E:=agent_env [asks [call_locate]; final_answer]) (P:=ExamplePython)
            (example_agent [asks [call_locate]; final_answer]) "Weather in Paris?" 2
            empty_world = (Ok r, w') ∧
          last (log w') = Some (EvStdout (OutUsage (usage_of_log (log w')))) ∧
          usage_of_log (log w')
            = {| input_tokens := 30; output_tokens := 12; total_tokens := 42 |}.
Proof.
  eassert (Hrun : invoke (E:=agent_env [asks [call_locate]; final_answer])
                    (P:=ExamplePython)
                    (example_agent [asks [call_locate]; final_answer])
                    "Weather in Paris?" 2 empty_world = (Ok _, _))
    by (vm_compute; reflexivity).
  destruct (invoke_prints_total_usage
              (E:=agent_env [asks [call_locate]; final_answer]) (P:=ExamplePython)
              _ _ _ _ _ Hrun) as (new & Hlog & Hlast).
  simpl in Hlog. subst new.
  eexists _, _. split; [exact Hrun |]. split; [exact Hlast |].
  vm_compute. reflexivity.
Defined.

Lemma geocode_reply_example :
  (geocode (E:=scripted_env [Responded (response 404 None)]) (P:=ExamplePython)
     (λ _, "city not found") (Some example_client) "Atlantis" 1 None empty_world).1
    = Ok (HTTPException 404 "city not found").
Proof.
  destruct (geocode_reply (E:=scripted_env [Responded (response 404 None)])
              (P:=ExamplePython) (λ _, "city not found") example_client
              "Atlantis" 1 None empty_world [] (Responded (response 404 None)))
    as [(w' & Hrun & _) _].
  - simpl. lia.
  - intros i o' d Hi. done.
  - intros d. reflexivity.
  - by left.
  - rewrite Hrun. reflexivity.
Defined.

Lemma current_weather_reply_example :
  ∃ w', current_weather_endpoint (E:=scripted_env []) (P:=ExamplePython)
          (λ _, "") (Some example_client) (VFloat 0) (VFloat 0) "metric" None
          empty_world
          = (Ok (HTTPException 502 "Upstream error: TransportError"), w') ∧
        requests w' = 3%nat.
Proof.
  destruct (current_weather_reply (E:=scripted_env []) (P:=ExamplePython) (λ _, "")
              example_client (VFloat 0) (VFloat 0) "metric" None empty_world
              [Failed ConnectError; Failed ConnectError] (Failed ConnectError))
    as [(w' & Hrun & Hreq) _].
  - simpl. lia.
  - intros i o' d Hi. destruct i as [| [| i]]; simpl in Hi; inversion Hi; subst;
      split; reflexivity.
  - intros d. reflexivity.
  - right. reflexivity.
  - exists w'. split; [exact Hrun | exact Hreq].
Defined.

